(** * The process supervisor of the scrcpy controller (src/main.py)

    A shallow embedding of [CommandThread] (its [run] and
    [terminate_process] methods) and of the part of [ScrcpyController]
    that feeds it ([write_to_terminal], [submit_command]).

    Python code that talks to the operating system and to Qt signals is
    written in a small state-and-exception monad over a [world]: the
    attributes of one [CommandThread], what the pipes of its child will
    still deliver, and a chronological log of every library call and
    every signal emission the thread performs. *)

From Stdlib Require Import ZArith List String Ascii Bool Lia Arith.
From Stdlib Require Import DecimalString.
Import ListNotations.
Local Open Scope string_scope.
Local Open Scope Z_scope.

Set Implicit Arguments.

(** ** Python values *)

(** The newline character, as a string, and a text followed by it. *)
Definition nl : string := String (ascii_of_nat 10) EmptyString.

Definition with_nl (text : string) : string := text ++ nl.

(** [f"{n}"] for a Python [int]. *)
Definition str_of_int (n : Z) : string :=
  NilZero.string_of_int (Z.to_int n).

(** Truth value of a [str]: the empty string is falsy. *)
Definition truthy (s : string) : bool :=
  match s with
  | EmptyString => false
  | String _ _ => true
  end.

(** [re.match(r'^(adb|scrcpy)', s) is not None]: [re.match] anchors at the
    start of the string, so the test is a prefix test. *)
Definition re_match_adb_scrcpy (s : string) : bool :=
  String.prefix "adb" s || String.prefix "scrcpy" s.

(** ** The child process and the operating system *)

(** What a [subprocess.Popen] handle will let its owner observe. A child
    is a finite script: after finitely many reads its stdout is at end of
    file, and after finitely many polls it has exited. *)
Record child : Type := mkChild {
  pid : Z;
  (** successive non-final results of [stdout.readline()]; once they are
      used up the pipe is at end of file and [readline()] returns the
      empty string *)
  child_stdout : list string;
  (** how many calls of [poll()] still find the child running *)
  child_alive_polls : nat;
  (** the whole of the child's stderr, as [stderr.read()] returns it *)
  child_stderr : string;
  (** the [returncode] that [poll()] and [wait()] report after the exit *)
  returncode : Z
}.

(** Outcome of a library call that may raise: a value or the [str(e)] of
    the exception. *)
Inductive outcome (A : Type) : Type :=
| Returned (a : A)
| Raised (msg : string).
Arguments Returned {A} a.
Arguments Raised {A} msg.

(** The environment of one thread. *)
Record os : Type := mkOs {
  (** [platform.system()] *)
  platform_system : string;
  (** [os.path.isdir("scrcpy")] *)
  isdir_scrcpy : bool;
  (** [subprocess.Popen(cmd, shell=True, ...)]: a handle or an exception *)
  spawn : string -> outcome child;
  (** the call logged at position [n] raises [msg] when [fault n = Some msg]
      (a broken pipe, a decoding error, [TimeoutExpired], ...) *)
  fault : nat -> option string
}.

(** ** Events: library calls and signal emissions, in program order *)

Inductive event : Type :=
| Popen (cmd : string)             (* subprocess.Popen(cmd, shell=True, ...) *)
| Readline                         (* self.process.stdout.readline() *)
| Poll                             (* self.process.poll() *)
| StderrRead                       (* self.process.stderr.read() *)
| Wait (timeout : option Z)        (* self.process.wait(timeout=...) *)
| ShellRun (cmd : string)          (* subprocess.run(cmd, shell=True) *)
| Terminate                        (* self.process.terminate() *)
| Output (text : string)           (* self.output_signal.emit(text) *)
| Finished (code : Z).             (* self.finished_signal.emit(code) *)

Definition is_output (e : event) : bool :=
  match e with Output _ => true | _ => false end.

Definition is_finished (e : event) : bool :=
  match e with Finished _ => true | _ => false end.

Definition is_signal (e : event) : bool :=
  is_output e || is_finished e.

(** The callbacks the caller sees, in order. *)
Definition signals (l : list event) : list event := filter is_signal l.

(** ** The state of one [CommandThread] *)

Record world : Type := mkWorld {
  command : string;              (* self.command *)
  cmd_prefix : string;           (* self.cmd_prefix *)
  process : option child;        (* self.process; None until Popen returns *)
  stdout_pending : list string;  (* lines the stdout pipe still holds *)
  alive_polls : nat;             (* polls that still see the child running *)
  log : list event
}.

(** [CommandThread.__init__(command, cmd_prefix)] *)
Definition init (cmd pre : string) : world :=
  mkWorld cmd pre None [] 0 [].

(** ** The monad: state, Python exceptions, and fuel for [while True] *)

Inductive result (A : Type) : Type :=
| Ok (a : A)
| Exn (msg : string)
| OutOfFuel.
Arguments Ok {A} a.
Arguments Exn {A} msg.
Arguments OutOfFuel {A}.

Definition M (A : Type) : Type := world -> result A * world.

Definition ret {A} (a : A) : M A := fun w => (Ok a, w).

Definition bind {A B} (m : M A) (k : A -> M B) : M B :=
  fun w =>
    match m w with
    | (Ok a, w') => k a w'
    | (Exn msg, w') => (Exn msg, w')
    | (OutOfFuel, w') => (OutOfFuel, w')
    end.

Notation "x <- m ;; k" := (bind m (fun x => k))
  (at level 61, m at next level, right associativity).
Notation "m ;;; k" := (bind m (fun _ => k))
  (at level 61, right associativity).

(** [try: body  except Exception as e: handler(str(e))] *)
Definition try_except {A} (body : M A) (handler : string -> M A) : M A :=
  fun w =>
    match body w with
    | (Exn msg, w') => handler msg w'
    | r => r
    end.

(** [try: body  except: pass] *)
Definition try_pass (body : M unit) : M unit :=
  try_except body (fun _ => ret tt).

Definition get {A} (f : world -> A) : M A := fun w => (Ok (f w), w).

Definition record (e : event) (w : world) : world :=
  mkWorld (command w) (cmd_prefix w) (process w) (stdout_pending w)
          (alive_polls w) (log w ++ [e]).

Definition set_pending (lines : list string) (w : world) : world :=
  mkWorld (command w) (cmd_prefix w) (process w) lines (alive_polls w) (log w).

Definition set_alive (n : nat) (w : world) : world :=
  mkWorld (command w) (cmd_prefix w) (process w) (stdout_pending w) n (log w).

(** [self.process = c]: the handle and the pipes of a fresh child. *)
Definition attach (c : child) (w : world) : world :=
  mkWorld (command w) (cmd_prefix w) (Some c) (child_stdout c)
          (child_alive_polls c) (log w).

(** A signal emission: it is logged and it never raises. *)
Definition emit (e : event) : M unit := fun w => (Ok tt, record e w).

Section Thread.

Variable env : os.

(** A library call: it is logged, and it raises when the environment
    injects a fault at this position of the log. *)
Definition call (e : event) : M unit :=
  fun w =>
    match fault env (List.length (log w)) with
    | Some msg => (Exn msg, record e w)
    | None => (Ok tt, record e w)
    end.

(** [self.process = subprocess.Popen(full_command, shell=True, ...)] *)
Definition popen (full_command : string) : M unit :=
  call (Popen full_command) ;;;
  fun w =>
    match spawn env full_command with
    | Raised msg => (Exn msg, w)
    | Returned c => (Ok tt, attach c w)
    end.

(** [self.process.stdout.readline()] *)
Definition stdout_readline : M string :=
  call Readline ;;;
  fun w =>
    match stdout_pending w with
    | [] => (Ok EmptyString, w)
    | line :: rest => (Ok line, set_pending rest w)
    end.

(** [self.process.poll()]: [None] while the child runs, then its return code *)
Definition process_poll : M (option Z) :=
  call Poll ;;;
  fun w =>
    match alive_polls w with
    | S n => (Ok None, set_alive n w)
    | O =>
        match process w with
        | Some c => (Ok (Some (returncode c)), w)
        | None => (Exn "'NoneType' object has no attribute 'poll'", w)
        end
    end.

(** [self.process.stderr.read()] *)
Definition stderr_read : M string :=
  call StderrRead ;;;
  fun w =>
    match process w with
    | Some c => (Ok (child_stderr c), w)
    | None => (Exn "'NoneType' object has no attribute 'stderr'", w)
    end.

(** [self.process.wait()] without a timeout: blocks until the child has
    exited and returns its return code *)
Definition process_wait : M Z :=
  call (Wait None) ;;;
  fun w =>
    match process w with
    | Some c => (Ok (returncode c), set_alive 0 w)
    | None => (Exn "'NoneType' object has no attribute 'wait'", w)
    end.

(** ** [CommandThread.run] *)

(** Lines 26-32: the command handed to the shell. *)
Definition full_command (cmd pre : string) : string :=
  if re_match_adb_scrcpy cmd then
    let full := pre ++ cmd in
    if isdir_scrcpy env then "cd scrcpy && " ++ full else full
  else cmd.

(** Lines 40-45: the [while True] loop, one unit of fuel per iteration. *)
Fixpoint read_loop (fuel : nat) : M unit :=
  match fuel with
  | O => fun w => (OutOfFuel, w)
  | S fuel' =>
      line <- stdout_readline ;;
      (* if not line and self.process.poll() is not None: break *)
      stop <- (if negb (truthy line)
               then (rc <- process_poll ;;
                     ret (match rc with Some _ => true | None => false end))
               else ret false) ;;
      if stop then ret tt
      else
        (* if line: self.output_signal.emit(line) *)
        (if truthy line then emit (Output line) else ret tt) ;;;
        read_loop fuel'
  end.

(** Lines 24-54: the body of the [try]. *)
Definition run_body (fuel : nat) : M unit :=
  cmd <- get command ;;
  pre <- get cmd_prefix ;;
  popen (full_command cmd pre) ;;;
  read_loop fuel ;;;
  stderr <- stderr_read ;;
  (if truthy stderr
   then emit (Output ("ERROR: " ++ stderr ++ nl))
   else ret tt) ;;;
  return_code <- process_wait ;;
  emit (Output ("Command completed with return code: "
                ++ str_of_int return_code ++ nl)) ;;;
  emit (Finished return_code).

(** Lines 56-58: the [except Exception as e] clause. *)
Definition run_handler (msg : string) : M unit :=
  emit (Output ("Exception: " ++ msg ++ nl)) ;;;
  emit (Finished (-1)).

Definition run_fuel (fuel : nat) : M unit :=
  try_except (run_body fuel) run_handler.

(** Iterations the loop can need: every pending line costs one, every poll
    that finds the child alive costs one, and the last one breaks. *)
Definition enough_fuel (cmd pre : string) : nat :=
  match spawn env (full_command cmd pre) with
  | Returned c => S (List.length (child_stdout c) + child_alive_polls c)
  | Raised _ => 1
  end.

Definition run : M unit :=
  fun w => run_fuel (enough_fuel (command w) (cmd_prefix w)) w.

(** ** [CommandThread.terminate_process] *)

Definition terminate_process : M unit :=
  p <- get process ;;
  match p with
  | None => ret tt
  | Some c =>
      try_pass
        (if String.eqb (platform_system env) "Windows" then
           call (ShellRun ("taskkill /F /T /PID " ++ str_of_int (pid c)))
         else
           call Terminate ;;;
           call (Wait (Some 5)))
  end.

End Thread.

(** ** The controller side: [ScrcpyController] *)

(** [str.isspace] on the ASCII range (code points above 127 are kept as
    they are): tab, newline, vertical tab, form feed, carriage return, the
    four separators 28-31 and the space. *)
Definition isspace (c : ascii) : bool :=
  let n := nat_of_ascii c in
  ((9 <=? n) && (n <=? 13) || (28 <=? n) && (n <=? 32))%nat.

Fixpoint lstrip (s : string) : string :=
  match s with
  | EmptyString => EmptyString
  | String c rest => if isspace c then lstrip rest else s
  end.

Fixpoint rstrip (s : string) : string :=
  match s with
  | EmptyString => EmptyString
  | String c rest =>
      match rstrip rest with
      | EmptyString => if isspace c then EmptyString else String c EmptyString
      | kept => String c kept
      end
  end.

(** [s.strip()] *)
Definition strip (s : string) : string := rstrip (lstrip s).

Record controller : Type := mkController {
  command_input : string;            (* self.command_input.text() *)
  controller_prefix : string;        (* self.cmd_prefix *)
  terminal_output : list string;     (* paragraphs of self.terminal_output *)
  running_processes : list world     (* threads created and started *)
}.

(** [write_to_terminal(text)]: [self.terminal_output.append(text.rstrip())] *)
Definition write_to_terminal (text : string) (c : controller) : controller :=
  mkController (command_input c) (controller_prefix c)
               (terminal_output c ++ [rstrip text]) (running_processes c).

(** The prompt of [submit_command]: the four bytes of U+1F4BB in UTF-8,
    then a space, [>] and a space. *)
Definition prompt : string :=
  String (ascii_of_nat 240) (String (ascii_of_nat 159)
    (String (ascii_of_nat 146) (String (ascii_of_nat 187) " > "))).

(** [submit_command]: the outcome is what the caller of the slot gets
    (the method has no [raise]), the controller is the state it leaves.
    A thread enters [running_processes] right after its [start()]. *)
Definition submit_command (c : controller) : outcome unit * controller :=
  let command := strip (command_input c) in
  if negb (truthy command) then (Returned tt, c)
  else
    let c1 := write_to_terminal (prompt ++ command) c in
    (* self.command_input.clear() *)
    let c2 := mkController EmptyString (controller_prefix c1)
                           (terminal_output c1) (running_processes c1) in
    let thread := init command (controller_prefix c2) in
    (Returned tt,
     mkController (command_input c2) (controller_prefix c2)
                  (terminal_output c2) (running_processes c2 ++ [thread])).


(** ** Vocabulary of the statements *)

(** The output event that carries the child's stderr, if it wrote any. *)
Definition stderr_report (c : child) : list event :=
  if truthy (child_stderr c)
  then [Output ("ERROR: " ++ child_stderr c ++ nl)]
  else [].

(** The line the supervisor itself adds before it reports completion. *)
Definition completion_line (rc : Z) : string :=
  "Command completed with return code: " ++ str_of_int rc ++ nl.

(** The line the supervisor emits when an exception reached its handler. *)
Definition exception_line (msg : string) : string :=
  "Exception: " ++ msg ++ nl.

(** Events the read loop may log while the pipe holds [lines]. *)
Definition loop_event (lines : list string) (e : event) : Prop :=
  e = Readline \/ e = Poll \/ exists t, e = Output t /\ In t lines.

(** Iterations the loop can still need from [w]. *)
Definition budget (w : world) : nat :=
  List.length (stdout_pending w) + alive_polls w.

(** No library call raises. *)
Definition no_fault : nat -> option string := fun _ => None.

(** An event that is not the completion callback. *)
Definition quiet (e : event) : Prop := is_finished e = false.

(** The [try] body of [run] reaches its last statement: no exception is
    raised on the way. *)
Definition completes_normally (env : os) (w : world) : Prop :=
  fst (run_body env (enough_fuel env (command w) (cmd_prefix w)) w) = Ok tt.

(** ** Vocabulary of [terminate_process] *)

(** The log grows, nothing else changes. *)
Definition append_log (evs : list event) (w : world) : world :=
  mkWorld (command w) (cmd_prefix w) (process w) (stdout_pending w)
          (alive_polls w) (log w ++ evs).

(** The command line of the tree kill. *)
Definition taskkill (c : child) : string :=
  "taskkill /F /T /PID " ++ str_of_int (pid c).

(** The library calls one [terminate_process()] makes from [w]. *)
Definition termination_calls (env : os) (w : world) : list event :=
  match process w with
  | None => []
  | Some c =>
      if String.eqb (platform_system env) "Windows"
      then [ShellRun (taskkill c)]
      else match fault env (List.length (log w)) with
           | Some _ => [Terminate]
           | None => [Terminate; Wait (Some 5)]
           end
  end.



(** ** Concrete environments and children *)

(** An environment in which every command spawns [c] and nothing raises. *)
Definition quiet_os (system : string) (scrcpy_dir : bool) (c : child) : os :=
  mkOs system scrcpy_dir (fun _ => Returned c) no_fault.

(** Prints two lines, is found running by one poll, exits with code 7. *)
Definition two_lines_child : child :=
  mkChild 4242 [with_nl "one"; with_nl "two"] 1 EmptyString 7.

(** Prints one line on stdout and two on stderr, exits with code 0. *)
Definition noisy_child : child :=
  mkChild 4243 [with_nl "building"] 0
          (with_nl "warning: a" ++ with_nl "warning: b") 0.

(** Prints nothing and exits with code 0. *)
Definition silent_child : child := mkChild 4244 [] 0 EmptyString 0.

(** The run of [make] with [noisy_child] as its child. *)
Definition noisy_run : world :=
  snd (run (quiet_os "Linux" false noisy_child) (init "make" EmptyString)).

(** The run of [adb devices] with [two_lines_child] as its child, in a
    directory that has a [scrcpy] folder. *)
Definition adb_os : os := quiet_os "Linux" true two_lines_child.

Definition adb_thread : world := init "adb devices" "./".

(** A thread whose process handle is set and whose child still runs. *)
Definition live_thread : world :=
  attach silent_child (record (Popen "scrcpy") (init "scrcpy" EmptyString)).

(** An environment in which [Popen] raises. *)
Definition failing_os : os :=
  mkOs "Linux" false
       (fun _ => Raised "[Errno 13] Permission denied: '/bin/sh'") no_fault.



(** A POSIX machine on which the third library call raises: after [Popen]
    and [terminate()], the [TimeoutExpired] of [wait(timeout=5)]. *)
Definition stubborn_os : os :=
  mkOs "Linux" false (fun _ => Returned silent_child)
       (fun n => if Nat.eqb n 2
                 then Some "Command 'scrcpy' timed out after 5 seconds"
                 else None).


(** ** More of Python's [str] *)

Definition tab : ascii := ascii_of_nat 9.

Definition newline : ascii := ascii_of_nat 10.

(** A text given by the bytes of its UTF-8 encoding. *)
Definition utf8 (codes : list nat) : string :=
  fold_right (fun n s => String (ascii_of_nat n) s) EmptyString codes.

(** The double quote, as a string. *)
Definition dquote : string := utf8 [34%nat].

(** [needle in hay] *)
Fixpoint contains (needle hay : string) : bool :=
  String.prefix needle hay
  || match hay with
     | EmptyString => false
     | String _ rest => contains needle rest
     end.

(** [s.split(sep)] for a separator of one character: never an empty list. *)
Fixpoint split_on (sep : ascii) (s : string) : list string :=
  match s with
  | EmptyString => [EmptyString]
  | String c rest =>
      if Ascii.eqb c sep then EmptyString :: split_on sep rest
      else match split_on sep rest with
           | first :: others => String c first :: others
           | [] => [String c EmptyString]
           end
  end.

(** The pictographs of the messages: U+1F680, U+1F4F1, U+1F50D, U+274C
    and U+2705. *)
Definition rocket_mark : string := utf8 [240; 159; 154; 128]%nat.

Definition phone_mark : string := utf8 [240; 159; 147; 177]%nat.

Definition lens_mark : string := utf8 [240; 159; 148; 141]%nat.

Definition cross_mark : string := utf8 [226; 157; 140]%nat.

Definition check_mark : string := utf8 [226; 156; 133]%nat.

(** ** [ScrcpyController.check_command_prefix] *)

(** The Windows prefix: a dot and a backslash. *)
Definition dot_backslash : string := "." ++ utf8 [92%nat].

(** The fallback of lines 80, 110 and 114. *)
Definition default_prefix (os_name : string) : string :=
  if String.eqb os_name "Windows" then dot_backslash else "./".

(** [probe cmd] is what [subprocess.run(cmd, shell=True, ...)] gives: the
    [returncode] of the result, or an exception. The value is the
    [self.cmd_prefix] the method leaves. *)
Definition check_command_prefix (os_name : string)
  (probe : string -> outcome Z) : string :=
  match probe "adb --version" with
  | Raised _ => default_prefix os_name
  | Returned rc =>
      if rc =? 0 then EmptyString
      else
        match probe (dot_backslash ++ "adb --version") with
        | Raised _ => default_prefix os_name
        | Returned rc' =>
            if rc' =? 0 then dot_backslash else default_prefix os_name
        end
  end.

(** ** The main window *)

(** The widgets the methods below read and write, around the [controller]
    of the command line. A combo box is its list of items and its current
    index; a button is whether it is enabled. *)
Record window : Type := mkWindow {
  base : controller;
  bitrate_combo : string;        (* self.bitrate_combo.currentText() *)
  fps_combo : string;            (* self.fps_combo.currentText() *)
  window_title_input : string;   (* self.window_title_input.text() *)
  maxsize_combo : string;        (* self.maxsize_combo.currentText() *)
  show_fps_checkbox : bool;      (* self.show_fps_checkbox.isChecked() *)
  device_items : list string;    (* the items of self.device_combo *)
  device_index : nat;            (* its current index *)
  start_btn : bool;              (* self.start_btn.isEnabled() *)
  stop_btn : bool                (* self.stop_btn.isEnabled() *)
}.

Definition set_base (c : controller) (w : window) : window :=
  mkWindow c (bitrate_combo w) (fps_combo w) (window_title_input w)
           (maxsize_combo w) (show_fps_checkbox w) (device_items w)
           (device_index w) (start_btn w) (stop_btn w).

Definition set_devices (items : list string) (index : nat) (w : window)
  : window :=
  mkWindow (base w) (bitrate_combo w) (fps_combo w) (window_title_input w)
           (maxsize_combo w) (show_fps_checkbox w) items index
           (start_btn w) (stop_btn w).

Definition set_buttons (start stop : bool) (w : window) : window :=
  mkWindow (base w) (bitrate_combo w) (fps_combo w) (window_title_input w)
           (maxsize_combo w) (show_fps_checkbox w) (device_items w)
           (device_index w) start stop.

(** [self.write_to_terminal(text)] on the window. *)
Definition say (text : string) (w : window) : window :=
  set_base (write_to_terminal text (base w)) w.

(** A thread is created, started and appended to [running_processes]. *)
Definition start_thread (thread : world) (w : window) : window :=
  set_base (mkController (command_input (base w))
                         (controller_prefix (base w))
                         (terminal_output (base w))
                         (running_processes (base w) ++ [thread])) w.

(** [self.terminal_output.toPlainText()]: the paragraphs, one per line
    (every appended text is taken as plain text). *)
Definition toPlainText (w : window) : string :=
  String.concat nl (terminal_output (base w)).

(** [self.device_combo.currentText()]: the current item, or the empty
    string when there is none. *)
Definition device_text (w : window) : string :=
  nth (device_index w) (device_items w) EmptyString.

(** ** [ScrcpyController.build_scrcpy_command] *)

Definition no_devices : string := "No devices detected".

(** [command_parts], as lines 503-534 leave it. *)
Definition command_parts (w : window) : list string :=
  ["scrcpy"]
  ++ (if String.eqb (bitrate_combo w) "NONE" then []
      else ["--video-bit-rate " ++ bitrate_combo w])
  ++ (if String.eqb (fps_combo w) "NONE" then []
      else ["--max-fps " ++ fps_combo w])
  ++ (let window_title := strip (window_title_input w) in
      if truthy window_title
      then ["--window-title " ++ dquote ++ window_title ++ dquote]
      else [])
  ++ (if String.eqb (maxsize_combo w) "NONE" then []
      else ["--max-size " ++ maxsize_combo w])
  ++ ["--render-driver=opengl"]
  ++ (if show_fps_checkbox w then ["--print-fps"] else [])
  ++ (if negb (String.eqb (device_text w) no_devices)
         && truthy (device_text w)
      then ["--serial=" ++ device_text w]
      else ["--select-usb"]).

Definition build_scrcpy_command (w : window) : string :=
  String.concat " " (command_parts w).

(** ** [start_scrcpy], [on_scrcpy_finished], [test_devices] *)

(** Lines 548-551 and 468-471: the controller's own resolution. *)
Definition in_scrcpy_folder (env : os) (pre command : string) : string :=
  if isdir_scrcpy env
  then "cd scrcpy && " ++ pre ++ command
  else pre ++ command.

Definition start_scrcpy (env : os) (w : window) : window :=
  let command := build_scrcpy_command w in
  let w1 := say (rocket_mark ++ " Starting: " ++ command)
                w in
  let w2 := set_buttons false true w1 in
  let full_command :=
    in_scrcpy_folder env (controller_prefix (base w2)) command in
  start_thread (init full_command (controller_prefix (base w2))) w2.

Definition on_scrcpy_finished (return_code : Z) (w : window) : window :=
  let w1 := set_buttons true (stop_btn w) w in
  let w2 := match running_processes (base w1) with
            | [] => set_buttons (start_btn w1) false w1
            | _ :: _ => w1
            end in
  say (phone_mark ++ " Scrcpy finished with code: "
       ++ str_of_int return_code) w2.

Definition test_devices (env : os) (w : window) : window :=
  let w1 := say (lens_mark
                 ++ " Testing connected devices...") w in
  let adb_cmd :=
    in_scrcpy_folder env (controller_prefix (base w1)) "adb devices" in
  start_thread (init adb_cmd (controller_prefix (base w1))) w1.

(** ** [parse_devices] *)

(** Lines 487-491: the body of the loop over the lines of the terminal. *)
Definition scan_line (devices : list string) (line : string) : list string :=
  if contains (String tab "device") line then
    let device_id := strip (hd EmptyString (split_on tab line)) in
    if truthy device_id
       && negb (String.eqb device_id "List of devices attached")
    then devices ++ [device_id]
    else devices
  else devices.

(** Lines 483-491: the devices found in the text of the terminal. *)
Definition found_devices (terminal_text : string) : list string :=
  fold_left scan_line (split_on newline terminal_text) [].

Definition parse_devices (return_code : Z) (w : window) : window :=
  if return_code =? 0 then
    let devices := found_devices (toPlainText w) in
    match devices with
    | _ :: _ =>
        (* clear(), addItems(devices): the first item becomes current *)
        say (phone_mark ++ " Found "
             ++ str_of_int (Z.of_nat (List.length devices)) ++ " device(s)")
            (set_devices devices 0 w)
    | [] =>
        say (cross_mark
             ++ " No devices found. Check USB debugging is enabled.")
            (set_devices [no_devices] 0 w)
    end
  else w.

(** ** Signals and their slots *)

(** What [finished_signal] is connected to: [parse_devices] by
    [test_devices], [on_scrcpy_finished] by [start_scrcpy], a lambda that
    writes the code by [submit_command]. *)
Inductive slot : Type :=
| ParseDevices
| OnScrcpyFinished
| CommandFinished.

Definition on_finished (s : slot) (code : Z) (w : window) : window :=
  match s with
  | ParseDevices => parse_devices code w
  | OnScrcpyFinished => on_scrcpy_finished code w
  | CommandFinished =>
      say (check_mark ++ " Command finished with code: "
           ++ str_of_int code) w
  end.

(** The window receives one event of a thread: [output_signal] goes to
    [write_to_terminal], [finished_signal] to its slot; library calls are
    not signals. *)
Definition deliver (s : slot) (w : window) (e : event) : window :=
  match e with
  | Output text => say text w
  | Finished code => on_finished s code w
  | _ => w
  end.

(** The window receives the events of a log, in order. *)
Definition deliver_all (s : slot) (l : list event) (w : window) : window :=
  fold_left (deliver s) l w.

(** [submit_command] on the window. *)
Definition submit (w : window) : window :=
  set_base (snd (submit_command (base w))) w.

(** ** Vocabulary of the device list *)

(** The devices one line of the terminal contributes. *)
Definition line_devices (line : string) : list string :=
  scan_line [] line.

(** A serial number as [adb devices] prints it: not empty, no blank at
    either end, no tab and no newline inside, not the header. *)
Definition clean_serial (serial : string) : bool :=
  truthy serial
  && String.eqb (strip serial) serial
  && negb (existsb (fun c => Ascii.eqb c tab || Ascii.eqb c newline)
                   (list_ascii_of_string serial))
  && negb (String.eqb serial "List of devices attached").

(** The line [adb devices] prints for an attached device. *)
Definition device_line (serial : string) : string :=
  serial ++ String tab "device" ++ nl.

(** The prefixes [check_command_prefix] can leave. *)
Definition controller_prefixes : list string :=
  [EmptyString; dot_backslash; "./"].

(** A window as [__init__] leaves it, for the given prefix. *)
Definition initial_window (pre : string) : window :=
  mkWindow
    (mkController EmptyString pre
       [rocket_mark ++ " Scrcpy Controller Ready!";
        phone_mark
        ++ " Connect your Android device and click 'Test Devices' to begin."]
       [])
    "8M" "90" "POCO X5 5G" "1600" true [no_devices] 0 true false.

(** What [adb devices] prints when the given devices are attached: the
    header, one line for each device, an empty line. *)
Definition adb_listing (serials : list string) : list string :=
  with_nl "List of devices attached" :: map device_line serials ++ [nl].

(** An [adb] that lists two devices, and a machine on which it runs. *)
Definition phone_child : child :=
  mkChild 4245 (adb_listing ["emulator-5554"; "R58M12345"]) 0 EmptyString 0.

Definition phone_os : os := quiet_os "Linux" false phone_child.


(** ** What can happen to the window *)

(** The user edits a widget or clicks a button, or a signal of some thread
    arrives. Stop All and Run Audio are not among the actions. *)
Inductive action : Type :=
| TypeCommand (text : string)
| ChangeSettings (bitrate fps title maxsize : string) (show_fps : bool)
| SelectDevice (index : nat)
| ClickSubmit
| ClickTestDevices
| ClickStartScrcpy
| Receive (s : slot) (e : event).

Definition perform (env : os) (w : window) (a : action) : window :=
  match a with
  | TypeCommand text =>
      set_base (mkController text (controller_prefix (base w))
                             (terminal_output (base w))
                             (running_processes (base w))) w
  | ChangeSettings bitrate fps title maxsize show_fps =>
      mkWindow (base w) bitrate fps title maxsize show_fps (device_items w)
               (device_index w) (start_btn w) (stop_btn w)
  | SelectDevice index =>
      (* only an item of the list can be picked *)
      if (index <? List.length (device_items w))%nat
      then set_devices (device_items w) index w
      else w
  | ClickSubmit => submit w
  | ClickTestDevices => test_devices env w
  | ClickStartScrcpy => start_scrcpy env w
  | Receive s e => deliver s w e
  end.

Definition perform_all (env : os) (actions : list action) (w : window)
  : window :=
  fold_left (perform env) actions w.

(** A command that does not strip to the empty string. *)
Definition not_blank (s : string) : Prop := strip s <> EmptyString.

(** What every action keeps: the device list is not empty, its current
    index is one of its items, and every item is the placeholder or a
    clean serial; every thread was created with a command that is not
    blank and with the controller's prefix, which is one of the three. *)
Record sound (w : window) : Prop := mkSound {
  sound_index : (device_index w < List.length (device_items w))%nat;
  sound_items :
    Forall (fun item => item = no_devices \/ clean_serial item = true)
           (device_items w);
  sound_prefix : In (controller_prefix (base w)) controller_prefixes;
  sound_threads :
    Forall (fun thread =>
              not_blank (command thread) /\
              cmd_prefix thread = controller_prefix (base w))
           (running_processes (base w))
}.

(** The user tests the devices, and the line of one device and the
    completion of the thread arrive. *)
Definition seen_device : list action :=
  [ClickTestDevices;
   Receive ParseDevices (Output (device_line "emulator-5554"));
   Receive ParseDevices (Finished 0)].

Definition is_start (a : action) : bool :=
  match a with ClickStartScrcpy => true | _ => false end.

(** ** Vocabulary of interrupted runs *)

Definition is_popen (e : event) : bool :=
  match e with Popen _ => true | _ => false end.

(** What the body of [run] has logged after [Popen] when a library call
    raises: it was in the read loop, or at [stderr.read()], or at
    [wait()]. *)
Inductive interrupted (c : child) : list event -> Prop :=
| InLoop loop_evs :
    Forall (loop_event (child_stdout c)) loop_evs ->
    interrupted c loop_evs
| InStderrRead loop_evs :
    Forall (loop_event (child_stdout c)) loop_evs ->
    interrupted c (loop_evs ++ [Readline; Poll; StderrRead])
| InWait loop_evs :
    Forall (loop_event (child_stdout c)) loop_evs ->
    interrupted c (loop_evs ++ [Readline; Poll; StderrRead]
                   ++ stderr_report c ++ [Wait None]).

Section Traces.

Variable env : os.

(** The body of [run] again, with the process handle and, when it is
    interrupted, how far it got. *)
Definition body_trace (w : world) (r : result unit) (w' : world) : Prop :=
  let fc := full_command env (command w) (cmd_prefix w) in
  exists evs,
    log w' = (log w ++ Popen fc :: evs)%list /\
    match r with
    | Ok _ => exists c, spawn env fc = Returned c /\ process w' = Some c
    | Exn msg =>
        (evs = [] /\ process w' = process w /\
         (fault env (List.length (log w)) = Some msg
          \/ spawn env fc = Raised msg))
        \/
        (exists c,
            fault env (List.length (log w)) = None /\
            spawn env fc = Returned c /\
            process w' = Some c /\
            interrupted c evs /\
            exists n, fault env n = Some msg)
    | OutOfFuel => True
    end.

End Traces.

(** A machine on which the second [readline()] of a run raises. *)
Definition flaky_os : os :=
  mkOs "Linux" false (fun _ => Returned two_lines_child)
       (fun n => if Nat.eqb n 3
                 then Some "'utf-8' codec can't decode byte 0xff"
                 else None).

(** The texts of the [output_signal] emissions of a log, in order. *)
Definition outputs_of (l : list event) : list string :=
  flat_map (fun e => match e with Output text => [text] | _ => [] end) l.

(** ** Weakest preconditions *)

(** [wp m Q w]: running [m] from [w] ends in a result and a world that
    satisfy [Q]. *)
Definition wp {A} (m : M A) (Q : result A -> world -> Prop) (w : world)
  : Prop :=
  Q (fst (m w)) (snd (m w)).

(** How a postcondition of [bind m k] splits over the result of [m]. *)
Definition after {A B} (k : A -> M B) (Q : result B -> world -> Prop)
  (r : result A) (w : world) : Prop :=
  match r with
  | Ok a => wp (k a) Q w
  | Exn msg => Q (Exn msg) w
  | OutOfFuel => Q OutOfFuel w
  end.

(** ** Postconditions *)

Section Postconditions.

Variable env : os.

(** What one execution of the loop, started in [w], leaves behind. *)
Inductive loop_post (fuel : nat) (w : world) (r : result unit) (w' : world)
  : Prop :=
| LoopPost (evs : list event)
    (Hlog : log w' = (log w ++ evs)%list)
    (Hkind : Forall (loop_event (stdout_pending w)) evs)
    (Hprocess : process w' = process w)
    (Hcommand : command w' = command w)
    (Hprefix : cmd_prefix w' = cmd_prefix w)
    (Hresult :
       match r with
       | OutOfFuel => (fuel <= budget w)%nat
       | Ok _ =>
           (exists before, evs = (before ++ [Readline; Poll])%list) /\
           (Forall (fun l => truthy l = true) (stdout_pending w) ->
            signals evs = map Output (stdout_pending w))
       | Exn msg => (exists n, fault env n = Some msg) \/ process w = None
       end).

(** What the body of the [try], started in [w], leaves behind. *)
Definition body_post (fuel : nat) (w : world) (r : result unit) (w' : world)
  : Prop :=
  let fc := full_command env (command w) (cmd_prefix w) in
  exists evs,
    log w' = (log w ++ Popen fc :: evs)%list /\
    match r with
    | Ok _ =>
        exists c loop_evs,
          spawn env fc = Returned c /\
          process w' = Some c /\
          Forall (loop_event (child_stdout c)) loop_evs /\
          (Forall (fun l => truthy l = true) (child_stdout c) ->
           signals loop_evs = map Output (child_stdout c)) /\
          evs = (loop_evs ++ [Readline; Poll; StderrRead] ++ stderr_report c
                 ++ [Wait None; Output (completion_line (returncode c));
                     Finished (returncode c)])%list
    | Exn msg =>
        Forall quiet evs /\
        ((exists n, fault env n = Some msg) \/ spawn env fc = Raised msg)
    | OutOfFuel =>
        exists c,
          spawn env fc = Returned c /\
          (fuel <= List.length (child_stdout c) + child_alive_polls c)%nat
    end.

(** The two ways [run] can end: the [try] body ran to its last statement,
    or an exception reached the handler. *)
Definition run_post (w : world) (r : result unit) (w' : world) : Prop :=
  let fc := full_command env (command w) (cmd_prefix w) in
  r = Ok tt /\
  ((exists c loop_evs,
       spawn env fc = Returned c /\
       Forall (loop_event (child_stdout c)) loop_evs /\
       (Forall (fun l => truthy l = true) (child_stdout c) ->
        signals loop_evs = map Output (child_stdout c)) /\
       log w' = (log w ++ Popen fc :: loop_evs
                 ++ [Readline; Poll; StderrRead] ++ stderr_report c
                 ++ [Wait None; Output (completion_line (returncode c));
                     Finished (returncode c)])%list)
   \/
   (exists msg before,
       Forall quiet before /\
       ((exists n, fault env n = Some msg) \/ spawn env fc = Raised msg) /\
       log w' = (log w ++ Popen fc :: before
                 ++ [Output (exception_line msg); Finished (-1)])%list)).

End Postconditions.

(** ** Tactics *)

(** Equal logs up to the bracketing of [++]. *)
Ltac same_log :=
  simpl;
  repeat first [rewrite <- app_assoc | rewrite <- app_comm_cons
               | rewrite app_nil_r];
  simpl; reflexivity.

(** Every event of an explicit list is one the loop may log. *)
Ltac loop_events :=
  repeat first [apply Forall_nil | apply Forall_cons];
  unfold loop_event; simpl; eauto 7.

(** * Reasoning rules *)

Lemma wp_bind A B (m : M A) (k : A -> M B) Q w :
  wp m (after k Q) w -> wp (bind m k) Q w.
Proof.
  unfold wp, after, bind. destruct (m w) as [[a|msg|] w']; simpl; auto.
Qed.

Lemma wp_ret A (a : A) Q w : Q (Ok a) w -> wp (ret a) Q w.
Proof. exact (fun H => H). Qed.

Lemma wp_get A (f : world -> A) Q w : Q (Ok (f w)) w -> wp (get f) Q w.
Proof. exact (fun H => H). Qed.

Lemma wp_emit e Q w : Q (Ok tt) (record e w) -> wp (emit e) Q w.
Proof. exact (fun H => H). Qed.

(** [if b: emit(e)] *)
Lemma wp_emit_if (b : bool) e Q w :
  Q (Ok tt) (if b then record e w else w) ->
  wp (if b then emit e else ret tt) Q w.
Proof. destruct b; exact (fun H => H). Qed.

Lemma wp_conseq A (m : M A) (Q Q' : result A -> world -> Prop) w :
  (forall r w', Q r w' -> Q' r w') -> wp m Q w -> wp m Q' w.
Proof. unfold wp; auto. Qed.

Lemma wp_try_except A (body : M A) handler Q w :
  wp body (fun r w' => match r with
                       | Exn msg => wp (handler msg) Q w'
                       | _ => Q r w'
                       end) w ->
  wp (try_except body handler) Q w.
Proof.
  unfold wp, try_except. destruct (body w) as [[a|msg|] w']; simpl; auto.
Qed.

Section Rules.

Variable env : os.

Lemma wp_call e Q w :
  (forall msg, fault env (List.length (log w)) = Some msg ->
               Q (Exn msg) (record e w)) ->
  (fault env (List.length (log w)) = None -> Q (Ok tt) (record e w)) ->
  wp (call env e) Q w.
Proof.
  unfold wp, call. intros Hraise Hok.
  destruct (fault env (List.length (log w))) as [msg|]; simpl; auto.
Qed.

Lemma wp_stdout_readline Q w :
  (forall msg, fault env (List.length (log w)) = Some msg ->
               Q (Exn msg) (record Readline w)) ->
  (fault env (List.length (log w)) = None ->
   match stdout_pending w with
   | [] => Q (Ok EmptyString) (record Readline w)
   | line :: rest => Q (Ok line) (set_pending rest (record Readline w))
   end) ->
  wp (stdout_readline env) Q w.
Proof.
  intros Hraise Hok. apply wp_bind, wp_call; unfold after; [exact Hraise|].
  intros Hf. specialize (Hok Hf). unfold wp. simpl.
  destruct (stdout_pending w); exact Hok.
Qed.

Lemma wp_process_poll Q w :
  (forall msg, fault env (List.length (log w)) = Some msg ->
               Q (Exn msg) (record Poll w)) ->
  (fault env (List.length (log w)) = None ->
   match alive_polls w, process w with
   | S n, _ => Q (Ok None) (set_alive n (record Poll w))
   | O, Some c => Q (Ok (Some (returncode c))) (record Poll w)
   | O, None => forall msg, Q (Exn msg) (record Poll w)
   end) ->
  wp (process_poll env) Q w.
Proof.
  intros Hraise Hok. apply wp_bind, wp_call; unfold after; [exact Hraise|].
  intros Hf. specialize (Hok Hf). unfold wp. simpl.
  destruct (alive_polls w); [destruct (process w)|];
    solve [exact Hok | apply Hok].
Qed.

End Rules.

(** * The read loop *)

Section LoopFacts.

Variable env : os.

Lemma loop_event_incl lines lines' evs :
  incl lines lines' ->
  Forall (loop_event lines) evs -> Forall (loop_event lines') evs.
Proof.
  intros Hincl H. eapply Forall_impl; [|exact H].
  intros e [He|[He|[t [He Hin]]]]; [left|right; left|right; right]; auto.
  exists t. split; [exact He|apply Hincl; exact Hin].
Qed.

Lemma loop_post_step fuel w w1 pre r w' :
  log w1 = (log w ++ pre)%list ->
  pre <> [] ->
  Forall (loop_event (stdout_pending w)) pre ->
  incl (stdout_pending w1) (stdout_pending w) ->
  process w1 = process w ->
  command w1 = command w ->
  cmd_prefix w1 = cmd_prefix w ->
  (budget w1 < budget w)%nat ->
  (Forall (fun l => truthy l = true) (stdout_pending w) ->
   Forall (fun l => truthy l = true) (stdout_pending w1) /\
   (signals pre ++ map Output (stdout_pending w1))%list
   = map Output (stdout_pending w)) ->
  loop_post env fuel w1 r w' -> loop_post env (S fuel) w r w'.
Proof.
  intros Hlog1 Hne Hpre Hincl Hp Hc Hx Hlt Hsig
         [evs Hlog Hkind Hp' Hc' Hx' Hres].
  apply LoopPost with (evs := (pre ++ evs)%list).
  - rewrite Hlog, Hlog1. symmetry. apply app_assoc.
  - apply Forall_app. split; [exact Hpre|].
    eapply loop_event_incl; eassumption.
  - congruence.
  - congruence.
  - congruence.
  - destruct r as [[]|msg|].
    + destruct Hres as [[before ->] Hall]. split.
      * exists (pre ++ before)%list. apply app_assoc.
      * intros Htruthy. destruct (Hsig Htruthy) as [Htruthy1 <-].
        unfold signals in *. rewrite filter_app, (Hall Htruthy1).
        reflexivity.
    + destruct Hres as [Hfault|Hnone]; [left; exact Hfault|right; congruence].
    + lia.
Qed.

(** The part of an iteration that follows an empty [readline()] result:
    poll, then break or go round again. *)
Lemma poll_branch_post fuel w w1 :
  (forall w2, wp (read_loop env fuel) (loop_post env fuel w2) w2) ->
  log w1 = (log w ++ [Readline])%list ->
  process w1 = process w ->
  command w1 = command w ->
  cmd_prefix w1 = cmd_prefix w ->
  alive_polls w1 = alive_polls w ->
  incl (stdout_pending w1) (stdout_pending w) ->
  (List.length (stdout_pending w1) <= List.length (stdout_pending w))%nat ->
  (Forall (fun l => truthy l = true) (stdout_pending w) ->
   stdout_pending w = [] /\ stdout_pending w1 = []) ->
  wp (stop <- (rc <- process_poll env ;;
               ret (match rc with Some _ => true | None => false end)) ;;
      if stop then ret tt else ret tt ;;; read_loop env fuel)
     (loop_post env (S fuel) w) w1.
Proof.
  intros IH Hlog1 Hproc1 Hcmd1 Hpre1 Halive1 Hincl Hlen Heof.
  assert (Hstop : forall r w',
             log w' = (log w ++ [Readline; Poll])%list ->
             process w' = process w -> command w' = command w ->
             cmd_prefix w' = cmd_prefix w ->
             match r with
             | Ok _ => True
             | Exn msg => (exists n, fault env n = Some msg) \/ process w = None
             | OutOfFuel => False
             end ->
             loop_post env (S fuel) w r w').
  { intros r w' Hlog' Hproc' Hcmd' Hpre' Hr.
    apply LoopPost with (evs := [Readline; Poll]); auto; [loop_events|].
    destruct r as [[]|msg|]; [split|exact Hr|contradiction].
    - exists []. reflexivity.
    - intros Htruthy. destruct (Heof Htruthy) as [-> _]. reflexivity. }
  assert (Hlog2 : log (record Poll w1) = (log w ++ [Readline; Poll])%list).
  { cbn [log record]. rewrite Hlog1. same_log. }
  assert (Hproc2 : process (record Poll w1) = process w) by exact Hproc1.
  assert (Hcmd2 : command (record Poll w1) = command w) by exact Hcmd1.
  assert (Hpre2 : cmd_prefix (record Poll w1) = cmd_prefix w) by exact Hpre1.
  apply wp_bind, wp_bind, wp_process_poll.
  - intros msg Hfault. apply Hstop; auto. left. eauto.
  - intros _. destruct (alive_polls w1) as [|n] eqn:Halive;
      [destruct (process w1) as [c|] eqn:Hp|].
    + unfold after, wp. cbn [ret fst snd]. apply Hstop; auto.
    + intros msg. apply Hstop; auto.
    + unfold after at 1. unfold wp at 1. cbn [ret fst snd]. unfold after.
      apply wp_bind, wp_ret. unfold after.
      eapply wp_conseq; [|apply IH].
      intros r w'.
      apply loop_post_step with (pre := [Readline; Poll]);
        cbn [log set_alive stdout_pending process command cmd_prefix record];
        auto.
      * discriminate.
      * loop_events.
      * unfold budget. cbn [set_alive stdout_pending alive_polls record].
        rewrite <- Halive1. lia.
      * intros Htruthy. destruct (Heof Htruthy) as [-> ->].
        split; [constructor|reflexivity].
Qed.

Lemma read_loop_post fuel :
  forall w, wp (read_loop env fuel) (loop_post env fuel w) w.
Proof.
  induction fuel as [|fuel IH]; intros w.
  - unfold wp. simpl.
    apply LoopPost with (evs := []); auto; [same_log|apply Nat.le_0_l].
  - cbn [read_loop]. apply wp_bind, wp_stdout_readline.
    + intros msg Hfault.
      apply LoopPost with (evs := [Readline]); auto; [loop_events|].
      left. eauto.
    + intros _.
      destruct (stdout_pending w) as [|[|ch line] rest] eqn:Hpending;
        unfold after; cbn [truthy negb].
      * (* end of file *)
        apply poll_branch_post; auto;
          cbn [record stdout_pending]; rewrite Hpending; auto.
        apply incl_refl.
      * (* an empty string in the middle of the stream *)
        apply poll_branch_post; auto;
          cbn [record set_pending stdout_pending]; rewrite Hpending.
        -- apply incl_tl, incl_refl.
        -- simpl. lia.
        -- intros Htruthy. apply Forall_inv in Htruthy. discriminate.
      * (* a line: emit it and go round again *)
        apply wp_bind, wp_ret. unfold after.
        apply wp_bind, wp_emit. unfold after.
        eapply wp_conseq; [|apply IH].
        intros r w'.
        apply loop_post_step
          with (pre := [Readline; Output (String ch line)]);
          cbn [log set_pending stdout_pending process command cmd_prefix
               record]; auto.
        -- same_log.
        -- discriminate.
        -- rewrite Hpending. loop_events.
        -- rewrite Hpending. apply incl_tl, incl_refl.
        -- unfold budget.
           cbn [set_pending stdout_pending alive_polls record].
           rewrite Hpending. simpl. lia.
        -- rewrite Hpending. intros Htruthy.
           split; [exact (Forall_inv_tail Htruthy)|reflexivity].
Qed.

End LoopFacts.

(** * The body of [run] *)

Section BodyFacts.

Variable env : os.

Lemma wp_popen fc Q w :
  (forall msg, fault env (List.length (log w)) = Some msg ->
               Q (Exn msg) (record (Popen fc) w)) ->
  (fault env (List.length (log w)) = None ->
   match spawn env fc with
   | Raised msg => Q (Exn msg) (record (Popen fc) w)
   | Returned c => Q (Ok tt) (attach c (record (Popen fc) w))
   end) ->
  wp (popen env fc) Q w.
Proof.
  intros Hraise Hok. apply wp_bind, wp_call; unfold after; [exact Hraise|].
  intros Hf. specialize (Hok Hf). unfold wp. simpl.
  destruct (spawn env fc); exact Hok.
Qed.

Lemma wp_stderr_read Q w :
  (forall msg, fault env (List.length (log w)) = Some msg ->
               Q (Exn msg) (record StderrRead w)) ->
  (fault env (List.length (log w)) = None ->
   match process w with
   | Some c => Q (Ok (child_stderr c)) (record StderrRead w)
   | None => forall msg, Q (Exn msg) (record StderrRead w)
   end) ->
  wp (stderr_read env) Q w.
Proof.
  intros Hraise Hok. apply wp_bind, wp_call; unfold after; [exact Hraise|].
  intros Hf. specialize (Hok Hf). unfold wp. simpl.
  destruct (process w); solve [exact Hok | apply Hok].
Qed.

Lemma wp_process_wait Q w :
  (forall msg, fault env (List.length (log w)) = Some msg ->
               Q (Exn msg) (record (Wait None) w)) ->
  (fault env (List.length (log w)) = None ->
   match process w with
   | Some c => Q (Ok (returncode c)) (set_alive 0 (record (Wait None) w))
   | None => forall msg, Q (Exn msg) (record (Wait None) w)
   end) ->
  wp (process_wait env) Q w.
Proof.
  intros Hraise Hok. apply wp_bind, wp_call; unfold after; [exact Hraise|].
  intros Hf. specialize (Hok Hf). unfold wp. simpl.
  destruct (process w); solve [exact Hok | apply Hok].
Qed.

Lemma loop_events_quiet lines evs :
  Forall (loop_event lines) evs -> Forall quiet evs.
Proof.
  intros H. eapply Forall_impl; [|exact H].
  intros e [->|[->|[t [-> _]]]]; reflexivity.
Qed.

Lemma run_body_post fuel w : wp (run_body env fuel) (body_post env fuel w) w.
Proof.
  unfold run_body.
  apply wp_bind, wp_get. unfold after. apply wp_bind, wp_get. unfold after.
  set (fc := full_command env (command w) (cmd_prefix w)).
  apply wp_bind, wp_popen.
  { intros msg Hfault. exists []. split; [reflexivity|].
    split; [constructor|left; eauto]. }
  intros _. destruct (spawn env fc) as [c|msg] eqn:Hspawn.
  2:{ exists []. split; [reflexivity|]. split; [constructor|right; auto]. }
  unfold after. set (w1 := attach c (record (Popen fc) w)).
  apply wp_bind. eapply wp_conseq; [|apply read_loop_post].
  intros r w2 [evs Hlog Hkind Hproc _ _ Hres]. unfold after.
  change (stdout_pending w1) with (child_stdout c) in Hkind.
  assert (Hlog2 : log w2 = (log w ++ Popen fc :: evs)%list).
  { rewrite Hlog. simpl. rewrite <- app_assoc. reflexivity. }
  destruct r as [[]|msg|].
  - destruct Hres as [[before ->] Hsignals].
    apply Forall_app in Hkind. destruct Hkind as [Hbefore _].
    unfold signals in Hsignals. rewrite filter_app, app_nil_r in Hsignals.
    fold (signals before) in Hsignals.
    assert (Hquiet : Forall quiet before)
      by (eapply loop_events_quiet; eassumption).
    apply wp_bind, wp_stderr_read.
    { intros msg Hfault.
      exists (before ++ [Readline; Poll; StderrRead])%list.
      split; [cbn [log record]; rewrite Hlog2; same_log|].
      split; [|left; eauto].
      apply Forall_app. split; [exact Hquiet|repeat constructor]. }
    intros _. rewrite Hproc. change (process w1) with (Some c).
    cbv beta iota. unfold after. apply wp_bind, wp_emit_if. unfold after.
    match goal with |- wp _ _ ?w => set (w3 := w) end.
    assert (Hproc3 : process w3 = Some c).
    { unfold w3. destruct (truthy (child_stderr c)); simpl; rewrite Hproc;
        reflexivity. }
    assert (Hlog3 : log w3
                    = (log w ++ Popen fc :: before
                       ++ [Readline; Poll; StderrRead]
                       ++ stderr_report c)%list).
    { unfold w3, stderr_report. destruct (truthy (child_stderr c));
        cbn [log record]; rewrite Hlog2; same_log. }
    clearbody w3.
    apply wp_bind, wp_process_wait.
    { intros msg Hfault. eexists.
      split; [cbn [log record]; rewrite Hlog3; same_log|].
      split; [|left; eauto].
      apply Forall_app. split; [exact Hquiet|].
      unfold stderr_report. destruct (truthy (child_stderr c));
        repeat constructor. }
    intros _. rewrite Hproc3. unfold after.
    apply wp_bind, wp_emit. unfold after. apply wp_emit.
    eexists. split.
    + cbn [log record set_alive]. rewrite Hlog3. same_log.
    + exists c, before. repeat split; auto.
  - exists evs. split; [exact Hlog2|].
    split; [eapply loop_events_quiet; eassumption|].
    destruct Hres as [Hfault|Hnone]; [left; exact Hfault|discriminate].
  - exists evs. split; [exact Hlog2|]. exists c. split; [exact Hspawn|].
    exact Hres.
Qed.

End BodyFacts.

(** * The whole of [run] *)

Section RunFacts.

Variable env : os.


Lemma stderr_report_quiet c : Forall quiet (stderr_report c).
Proof.
  unfold stderr_report. destruct (truthy (child_stderr c)); repeat constructor.
Qed.

Lemma run_fuel_post w :
  wp (run_fuel env (enough_fuel env (command w) (cmd_prefix w)))
     (run_post env w) w.
Proof.
  apply wp_try_except. eapply wp_conseq; [|apply run_body_post].
  intros r w' [evs [Hlog Hres]]. destruct r as [[]|msg|].
  - destruct Hres as (c & loop_evs & Hspawn & _ & Hkind & Hsig & ->).
    split; [reflexivity|]. left. exists c, loop_evs. auto.
  - destruct Hres as [Hquiet Hcause].
    unfold run_handler. apply wp_bind, wp_emit. unfold after. apply wp_emit.
    split; [reflexivity|]. right. exists msg, evs.
    split; [exact Hquiet|]. split; [exact Hcause|].
    cbn [log record]. rewrite Hlog. unfold exception_line. same_log.
  - exfalso. destruct Hres as (c & Hspawn & Hfuel).
    unfold enough_fuel in Hfuel. rewrite Hspawn in Hfuel. lia.
Qed.

Lemma run_spec w : run_post env w (fst (run env w)) (snd (run env w)).
Proof. exact (run_fuel_post w). Qed.

(** The completion code and what precedes it, whichever way [run] ends. *)
Lemma run_ends_with_finished w :
  fst (run env w) = Ok tt /\
  exists before code,
    log (snd (run env w)) = (log w ++ before ++ [Finished code])%list /\
    Forall quiet before.
Proof.
  destruct (run_spec w) as [Hok [Hnormal|Hhandled]]; split; try exact Hok.
  - destruct Hnormal as (c & loop_evs & _ & Hkind & _ & Hlog).
    eexists (Popen _ :: loop_evs ++ [Readline; Poll; StderrRead]
             ++ stderr_report c
             ++ [Wait None; Output (completion_line (returncode c))])%list,
            (returncode c).
    split; [rewrite Hlog; same_log|].
    constructor; [reflexivity|].
    apply Forall_app. split; [eapply loop_events_quiet; eassumption|].
    repeat (apply Forall_cons; [reflexivity|]).
    apply Forall_app. split; [apply stderr_report_quiet|].
    repeat constructor.
  - destruct Hhandled as (msg & before & Hquiet & _ & Hlog).
    eexists (Popen _ :: before ++ [Output (exception_line msg)])%list, (-1).
    split; [rewrite Hlog; same_log|].
    constructor; [reflexivity|].
    apply Forall_app. split; [exact Hquiet|repeat constructor].
Qed.

End RunFacts.

(** * Completion is reported once, and last *)


(** C2. The emission of [finished_signal] is the last event of a run:
    every emission of [output_signal] lies strictly before it, and the
    callbacks the caller sees are the outputs followed by the completion. *)
Theorem run_completion_is_last (env : os) (w : world) :
  exists before code,
    log (snd (run env w)) = (log w ++ before ++ [Finished code])%list /\
    Forall (fun e => is_finished e = false) before /\
    signals (before ++ [Finished code])
    = (filter is_output before ++ [Finished code])%list.
Proof.
  destruct (run_ends_with_finished env w) as (_ & before & code & Hlog & Hq).
  exists before, code. split; [exact Hlog|]. split; [exact Hq|].
  unfold signals. rewrite filter_app. f_equal.
  apply filter_ext_in. intros e He.
  rewrite Forall_forall in Hq. unfold is_signal. rewrite (Hq e He).
  apply orb_false_r.
Qed.

(** * What the caller sees of a normal run *)

Section NormalRuns.

Variable env : os.




(** The log of a run whose [try] body was not interrupted. *)
Lemma normal_run_log w :
  completes_normally env w ->
  exists c loop_evs,
    spawn env (full_command env (command w) (cmd_prefix w)) = Returned c /\
    Forall (loop_event (child_stdout c)) loop_evs /\
    log (snd (run env w))
    = (log w ++ Popen (full_command env (command w) (cmd_prefix w))
       :: loop_evs
       ++ [Readline; Poll; StderrRead] ++ stderr_report c
       ++ [Wait None; Output (completion_line (returncode c));
           Finished (returncode c)])%list.
Proof.
  unfold completes_normally. intros Hbody.
  pose proof (run_body_post env
                (enough_fuel env (command w) (cmd_prefix w)) w) as Hpost.
  unfold wp in Hpost. unfold run, run_fuel, try_except.
  destruct (run_body env (enough_fuel env (command w) (cmd_prefix w)) w)
    as [r w'].
  simpl in Hbody. subst r. cbn [fst snd] in *.
  destruct Hpost as (evs & Hlog & c & loop_evs & Hspawn & _ & Hkind & _ & ->).
  exists c, loop_evs. auto.
Qed.

End NormalRuns.



(** C10. When the [try] body is not interrupted, the last two events of
    the run are the supervisor's own line, [Command completed with return
    code: N], and the completion callback with the same [N]; every output
    emitted before them is a line of the child's stdout or the report of
    its stderr. *)
Theorem run_adds_completion_line (env : os) (w : world) :
  completes_normally env w ->
  exists c before,
    spawn env (full_command env (command w) (cmd_prefix w)) = Returned c /\
    log (snd (run env w))
    = (log w ++ before
       ++ [Output ("Command completed with return code: "
                   ++ str_of_int (returncode c) ++ nl);
           Finished (returncode c)])%list /\
    forall text, In (Output text) before ->
                 In text (child_stdout c) \/ stderr_report c = [Output text].
Proof.
  intros Hnormal.
  destruct (normal_run_log Hnormal) as (c & loop_evs & Hspawn & Hkind & Hlog).
  exists c.
  eexists (Popen _ :: loop_evs ++ [Readline; Poll; StderrRead]
           ++ stderr_report c ++ [Wait None])%list.
  split; [exact Hspawn|]. split; [rewrite Hlog; same_log|].
  intros text [Habs|Hin]; [discriminate|].
  apply in_app_or in Hin. destruct Hin as [Hin|Hin].
  - left. rewrite Forall_forall in Hkind.
    destruct (Hkind _ Hin) as [Habs|[Habs|[t [Heq Ht]]]]; try discriminate.
    injection Heq as ->. exact Ht.
  - right. simpl in Hin.
    destruct Hin as [Habs|[Habs|[Habs|Hin]]]; try discriminate.
    apply in_app_or in Hin. destruct Hin as [Hin|[Habs|[]]];
      [|discriminate].
    unfold stderr_report in *. destruct (truthy (child_stderr c)).
    + destruct Hin as [<-|[]]. reflexivity.
    + destruct Hin.
Qed.

Lemma run_adds_completion_line_witness :
  completes_normally adb_os adb_thread /\
  exists c before,
    spawn adb_os "cd scrcpy && ./adb devices" = Returned c /\
    log (snd (run adb_os adb_thread))
    = (before
       ++ [Output ("Command completed with return code: "
                   ++ str_of_int (returncode c) ++ nl);
           Finished (returncode c)])%list /\
    forall text, In (Output text) before ->
                 In text (child_stdout c) \/ stderr_report c = [Output text].
Proof.
  split; [reflexivity|].
  apply (@run_adds_completion_line adb_os adb_thread). reflexivity.
Defined.

(** C4, as the code has it. When the [try] body is not interrupted, stderr
    is read once, in full, right after the poll that ended the stdout loop
    (the child has exited by then), and it reaches the caller as at most
    one output: [ERROR: ], the whole text, a newline, or nothing when the
    text is empty. Every output before that read is a line of stdout. *)
Theorem run_reports_stderr_once_after_exit (env : os) (w : world) :
  completes_normally env w ->
  exists c loop_evs,
    spawn env (full_command env (command w) (cmd_prefix w)) = Returned c /\
    Forall (loop_event (child_stdout c)) loop_evs /\
    log (snd (run env w))
    = (log w ++ Popen (full_command env (command w) (cmd_prefix w))
       :: loop_evs ++ [Readline; Poll; StderrRead]
       ++ (if truthy (child_stderr c)
           then [Output ("ERROR: " ++ child_stderr c ++ nl)]
           else [])
       ++ [Wait None; Output (completion_line (returncode c));
           Finished (returncode c)])%list.
Proof. intros Hnormal. exact (normal_run_log Hnormal). Qed.

Lemma run_reports_stderr_once_after_exit_witness :
  completes_normally (quiet_os "Linux" false noisy_child)
                     (init "make" EmptyString) /\
  exists c loop_evs,
    spawn (quiet_os "Linux" false noisy_child) "make" = Returned c /\
    Forall (loop_event (child_stdout c)) loop_evs /\
    log noisy_run
    = (Popen "make" :: loop_evs ++ [Readline; Poll; StderrRead]
       ++ (if truthy (child_stderr c)
           then [Output ("ERROR: " ++ child_stderr c ++ nl)]
           else [])
       ++ [Wait None; Output (completion_line (returncode c));
           Finished (returncode c)])%list.
Proof.
  split; [reflexivity|].
  apply (@run_reports_stderr_once_after_exit
           (quiet_os "Linux" false noisy_child) (init "make" EmptyString)).
  reflexivity.
Defined.

(** C4, as stated, fails: a child writes two lines to stderr; the caller
    gets neither of them as an output of its own, and the one output that
    carries them comes after the poll that saw the child gone. *)
Lemma stderr_lines_are_not_streamed :
  child_stderr noisy_child = with_nl "warning: a" ++ with_nl "warning: b"
  /\ log noisy_run
     = [Popen "make";
        Readline; Output (with_nl "building");
        Readline; Poll;
        StderrRead;
        Output ("ERROR: " ++ with_nl "warning: a" ++ with_nl "warning: b"
                ++ nl);
        Wait None;
        Output (with_nl "Command completed with return code: 0");
        Finished 0]
  /\ ~ In (Output (with_nl "ERROR: warning: a")) (log noisy_run)
  /\ ~ In (Output (with_nl "ERROR: warning: b")) (log noisy_run).
Proof.
  split; [reflexivity|]. split; [reflexivity|].
  split; intros Hin; vm_compute in Hin;
    repeat (destruct Hin as [Hin|Hin]; [discriminate Hin|]); exact Hin.
Qed.

(** * Spawn failure *)

Section SpawnFailure.

Variable env : os.


End SpawnFailure.



(** * Command resolution *)

Section Resolution.

Lemma prefix_iff p s :
  String.prefix p s = true <-> exists tail, s = p ++ tail.
Proof.
  revert s. induction p as [|a p IH]; intros s.
  - split; [intros _; exists s; reflexivity|destruct s; reflexivity].
  - destruct s as [|b s]; simpl.
    + split; [discriminate|intros [tail Habs]; discriminate].
    + destruct (ascii_dec a b) as [->|Hne].
      * rewrite IH. split; intros [tail Htail]; exists tail.
        -- rewrite Htail. reflexivity.
        -- injection Htail as ->. reflexivity.
      * split; [discriminate|intros [tail Habs]]. congruence.
Qed.

Lemma re_match_iff s :
  re_match_adb_scrcpy s = true <->
  exists tail, s = "adb" ++ tail \/ s = "scrcpy" ++ tail.
Proof.
  unfold re_match_adb_scrcpy. rewrite orb_true_iff, !prefix_iff.
  split.
  - intros [[tail H]|[tail H]]; exists tail; auto.
  - intros [tail [H|H]]; [left|right]; exists tail; exact H.
Qed.

End Resolution.

(** C7. The first thing [run] does is hand one command to the shell. If
    [self.command] begins with [adb] or with [scrcpy], that command is the
    prefix followed by [self.command], further preceded by [cd scrcpy && ]
    when the directory [scrcpy] exists; any other [self.command] is passed
    as it is. *)
Theorem run_resolves_command (env : os) (w : world) :
  exists resolved rest,
    log (snd (run env w)) = (log w ++ Popen resolved :: rest)%list /\
    ((exists tail, command w = "adb" ++ tail \/ command w = "scrcpy" ++ tail) ->
     resolved = if isdir_scrcpy env
                then "cd scrcpy && " ++ cmd_prefix w ++ command w
                else cmd_prefix w ++ command w) /\
    ((forall tail,
         command w <> "adb" ++ tail /\ command w <> "scrcpy" ++ tail) ->
     resolved = command w).
Proof.
  exists (full_command env (command w) (cmd_prefix w)).
  assert (Hlog : exists rest,
             log (snd (run env w))
             = (log w ++ Popen (full_command env (command w) (cmd_prefix w))
                :: rest)%list).
  { destruct (run_spec env w) as [_ [Hnormal|Hhandled]].
    - destruct Hnormal as (c & loop_evs & _ & _ & _ & ->).
      eexists. reflexivity.
    - destruct Hhandled as (msg & before & _ & _ & ->).
      eexists. reflexivity. }
  destruct Hlog as [rest Hlog]. exists rest. split; [exact Hlog|].
  unfold full_command. split.
  - intros Htool. apply re_match_iff in Htool. rewrite Htool. reflexivity.
  - intros Hother.
    destruct (re_match_adb_scrcpy (command w)) eqn:Hmatch; [|reflexivity].
    apply re_match_iff in Hmatch. destruct Hmatch as [tail [H|H]];
      destruct (Hother tail); contradiction.
Qed.

Lemma run_resolves_command_witness :
  exists rest,
    log (snd (run adb_os adb_thread))
    = Popen "cd scrcpy && ./adb devices" :: rest.
Proof.
  destruct (run_resolves_command adb_os adb_thread)
    as (resolved & rest & Hlog & Htool & _).
  exists rest. rewrite Hlog.
  rewrite Htool; [reflexivity|]. exists " devices". left. reflexivity.
Defined.

(** * Termination *)

Section Termination.

Variable env : os.

Lemma append_log_nil w : append_log [] w = w.
Proof.
  destruct w. unfold append_log. simpl. rewrite app_nil_r. reflexivity.
Qed.


(** One call: it returns normally and only the log changes. *)
Lemma terminate_process_step w :
  terminate_process env w
  = (Ok tt, append_log (termination_calls env w) w).
Proof.
  unfold terminate_process, termination_calls, bind, get.
  destruct (process w) as [c|] eqn:Hproc.
  - unfold try_pass, try_except, bind, call, ret, taskkill.
    destruct (String.eqb (platform_system env) "Windows").
    + destruct (fault env (List.length (log w))); reflexivity.
    + destruct (fault env (List.length (log w))); [reflexivity|].
      destruct (fault env (List.length (log (record Terminate w))));
        unfold append_log, record; simpl; rewrite <- app_assoc; reflexivity.
  - unfold ret. rewrite append_log_nil. reflexivity.
Qed.



End Termination.

(** C8. With a process handle in [self.process], [terminate_process]
    returns normally whatever the library calls do. On Windows it runs
    [taskkill /F /T /PID pid], which kills the tree rooted at the child.
    Elsewhere it calls [terminate()] and then [wait(timeout=5)]; the wait
    is skipped only when [terminate()] itself raised. *)
Theorem terminate_process_policy (env : os) (w : world) (c : child) :
  process w = Some c ->
  fst (terminate_process env w) = Ok tt /\
  (platform_system env = "Windows" ->
   log (snd (terminate_process env w))
   = (log w ++ [ShellRun ("taskkill /F /T /PID " ++ str_of_int (pid c))])%list)
  /\
  (platform_system env <> "Windows" ->
   log (snd (terminate_process env w))
   = (log w ++ match fault env (List.length (log w)) with
               | Some _ => [Terminate]
               | None => [Terminate; Wait (Some 5)]
               end)%list).
Proof.
  intros Hproc. rewrite terminate_process_step. cbn [fst snd].
  split; [reflexivity|].
  unfold termination_calls, append_log. rewrite Hproc. cbn [log].
  split; intros Hsystem.
  - rewrite Hsystem. reflexivity.
  - apply String.eqb_neq in Hsystem. rewrite Hsystem. reflexivity.
Qed.

Lemma terminate_process_policy_witness :
  process live_thread = Some silent_child /\
  fst (terminate_process stubborn_os live_thread) = Ok tt /\
  log (snd (terminate_process stubborn_os live_thread))
  = [Popen "scrcpy"; Terminate; Wait (Some 5)].
Proof.
  split; [reflexivity|].
  destruct (@terminate_process_policy stubborn_os live_thread silent_child)
    as (Hok & _ & Hposix); [reflexivity|].
  split; [exact Hok|]. apply Hposix. discriminate.
Defined.



(** * Blank commands *)




(** * The rest of the controller *)

Section PrefixFacts.

Variable env : os.

(** With a prefix the controller can hold, a resolved command is not one
    of the two tools any more, unless the prefix is empty and no folder
    was entered. *)
Lemma resolved_not_matched pre cmd :
  In pre controller_prefixes ->
  re_match_adb_scrcpy cmd = true ->
  re_match_adb_scrcpy (full_command env cmd pre)
  = (pre =? EmptyString)%string && negb (isdir_scrcpy env).
Proof.
  intros Hpre Hcmd. unfold full_command. rewrite Hcmd.
  destruct (isdir_scrcpy env).
  - rewrite andb_false_r. reflexivity.
  - destruct Hpre as [<-|[<-|[<-|[]]]]; [exact Hcmd|reflexivity|reflexivity].
Qed.

(** The first event of a run is the spawn of the resolved command. *)
Lemma run_first_event w :
  exists rest,
    log (snd (run env w))
    = (log w ++ Popen (full_command env (command w) (cmd_prefix w))
       :: rest)%list.
Proof.
  destruct (run_spec env w) as [_ [Hnormal|Hhandled]].
  - destruct Hnormal as (c & loop_evs & _ & _ & _ & ->).
    eexists. reflexivity.
  - destruct Hhandled as (msg & before & _ & _ & ->).
    eexists. reflexivity.
Qed.

End PrefixFacts.

Section Idempotence.

Variable env : os.

(** A command of one of the two tools, resolved twice. *)
Lemma resolved_twice pre cmd :
  In pre controller_prefixes ->
  re_match_adb_scrcpy cmd = true ->
  full_command env (full_command env cmd pre) pre = full_command env cmd pre.
Proof.
  intros Hpre Hcmd.
  pose proof (resolved_not_matched env cmd Hpre Hcmd) as Hres.
  unfold full_command at 1. rewrite Hres.
  destruct (isdir_scrcpy env) eqn:Hdir.
  - rewrite andb_false_r. reflexivity.
  - rewrite andb_true_r.
    destruct (String.eqb_spec pre EmptyString) as [->|Hne]; [|reflexivity].
    unfold full_command. rewrite Hcmd, Hdir. reflexivity.
Qed.

End Idempotence.

(** X1. With one of the three prefixes the controller can hold, resolving
    a command twice gives what resolving it once gives: a command that the
    controller has already prefixed is not prefixed again by the thread,
    and any other command is passed as it is both times. *)
Theorem full_command_idempotent (env : os) (cmd pre : string) :
  In pre controller_prefixes ->
  full_command env (full_command env cmd pre) pre = full_command env cmd pre.
Proof.
  intros Hpre. destruct (re_match_adb_scrcpy cmd) eqn:Hcmd.
  - apply resolved_twice; assumption.
  - unfold full_command. rewrite Hcmd, Hcmd. reflexivity.
Qed.

Lemma full_command_idempotent_witness :
  In "./" controller_prefixes /\
  full_command adb_os (full_command adb_os "adb devices" "./") "./"
  = "cd scrcpy && ./adb devices".
Proof.
  assert (Hpre : In "./" controller_prefixes)
    by (right; right; left; reflexivity).
  split; [exact Hpre|].
  exact (@full_command_idempotent adb_os "adb devices" "./" Hpre).
Defined.

(** X2. [check_command_prefix] leaves one of three prefixes: the empty one
    exactly when [adb --version] ran and returned 0, and [./] only off
    Windows. *)
Theorem check_command_prefix_values (os_name : string)
  (probe : string -> outcome Z) :
  In (check_command_prefix os_name probe) controller_prefixes /\
  (check_command_prefix os_name probe = EmptyString <->
   probe "adb --version" = Returned 0) /\
  (check_command_prefix os_name probe = "./" -> os_name <> "Windows").
Proof.
  assert (Hdefault : In (default_prefix os_name) controller_prefixes
                     /\ default_prefix os_name <> EmptyString
                     /\ (default_prefix os_name = "./" ->
                         os_name <> "Windows")).
  { unfold default_prefix.
    destruct (String.eqb_spec os_name "Windows") as [->|Hne].
    - split; [right; left; reflexivity|]. split; discriminate.
    - split; [right; right; left; reflexivity|]. split; [discriminate|auto]. }
  destruct Hdefault as (Hin & Hne & Hwin).
  unfold check_command_prefix.
  destruct (probe "adb --version") as [rc|msg].
  - destruct (Z.eqb_spec rc 0) as [->|Hrc].
    + split; [left; reflexivity|]. split; [tauto|discriminate].
    + assert (Hnot : Returned rc <> Returned 0) by congruence.
      destruct (probe (dot_backslash ++ "adb --version")) as [rc'|msg'];
        [destruct (rc' =? 0)|].
      * split; [right; left; reflexivity|].
        split; [split; [discriminate|contradiction]|discriminate].
      * split; [exact Hin|]. split; [split; contradiction|exact Hwin].
      * split; [exact Hin|]. split; [split; contradiction|exact Hwin].
  - split; [exact Hin|].
    split; [split; [contradiction|discriminate]|exact Hwin].
Qed.

Section CommandLine.

Lemma concat_cons2 sep x y l :
  String.concat sep (x :: y :: l) = x ++ sep ++ String.concat sep (y :: l).
Proof. reflexivity. Qed.

Lemma string_app_assoc (a b c : string) : (a ++ b) ++ c = a ++ b ++ c.
Proof.
  induction a as [|ch a IH]; simpl; [reflexivity|]. rewrite IH. reflexivity.
Qed.

(** Joining a list that ends with [x]. *)
Lemma concat_snoc sep front x :
  front <> [] ->
  String.concat sep (front ++ [x]) = String.concat sep front ++ sep ++ x.
Proof.
  induction front as [|a front IH]; intros Hne; [contradiction|].
  destruct front as [|b front].
  - reflexivity.
  - change ((a :: b :: front) ++ [x])%list
      with (a :: (b :: (front ++ [x]))%list).
    rewrite !concat_cons2.
    change (b :: front ++ [x])%list with ((b :: front) ++ [x])%list.
    rewrite IH by discriminate. rewrite !string_app_assoc. reflexivity.
Qed.

(** The parts of the command line without the device option. *)
Lemma command_parts_device w :
  exists front,
    front <> [] /\
    command_parts w
    = (front ++ [if negb (String.eqb (device_text w) no_devices)
                    && truthy (device_text w)
                 then ("--serial=" ++ device_text w)%string
                 else "--select-usb"])%list.
Proof.
  unfold command_parts.
  set (device := if negb (String.eqb (device_text w) no_devices)
                    && truthy (device_text w)
                 then ("--serial=" ++ device_text w)%string
                 else "--select-usb").
  replace (if negb (String.eqb (device_text w) no_devices)
              && truthy (device_text w)
           then ["--serial=" ++ device_text w]
           else ["--select-usb"]) with [device]
    by (unfold device;
        destruct (negb (String.eqb (device_text w) no_devices)
                  && truthy (device_text w)); reflexivity).
  rewrite !app_assoc. eexists. split; [|reflexivity].
  cbn [app]. discriminate.
Qed.

(** The command line starts with the name of the tool. *)
Lemma command_parts_head w :
  exists second others, command_parts w = "scrcpy" :: second :: others.
Proof.
  unfold command_parts.
  destruct (String.eqb (bitrate_combo w) "NONE");
    destruct (String.eqb (fps_combo w) "NONE");
    destruct (truthy (strip (window_title_input w)));
    destruct (String.eqb (maxsize_combo w) "NONE");
    cbn [app]; eexists; eexists; reflexivity.
Qed.

Lemma build_scrcpy_command_matches w :
  re_match_adb_scrcpy (build_scrcpy_command w) = true.
Proof.
  destruct (command_parts_head w) as (second & others & Hparts).
  unfold build_scrcpy_command. rewrite Hparts, concat_cons2. reflexivity.
Qed.

(** The device option, from the current item of the device list. *)
Lemma build_scrcpy_command_ends w :
  exists front,
    build_scrcpy_command w
    = front ++ " " ++ (if negb (String.eqb (device_text w) no_devices)
                          && truthy (device_text w)
                       then "--serial=" ++ device_text w
                       else "--select-usb").
Proof.
  destruct (command_parts_device w) as (front & Hfront & Hparts).
  exists (String.concat " " front).
  unfold build_scrcpy_command. rewrite Hparts. apply concat_snoc, Hfront.
Qed.

End CommandLine.

(** X3. The command line always starts with [scrcpy] and a space, so the
    thread's pattern recognises it, and it always asks for the OpenGL
    render driver, whatever the widgets hold. *)
Theorem build_scrcpy_command_recognised (w : window) :
  (exists options, build_scrcpy_command w = "scrcpy " ++ options) /\
  re_match_adb_scrcpy (build_scrcpy_command w) = true /\
  In "--render-driver=opengl" (command_parts w).
Proof.
  pose proof (command_parts_head w) as Hparts.
  destruct Hparts as (second & others & Hparts).
  unfold build_scrcpy_command. rewrite Hparts, concat_cons2.
  split; [eexists; reflexivity|]. split; [reflexivity|].
  rewrite <- Hparts. unfold command_parts.
  do 5 (apply in_or_app; right). apply in_or_app. left. left. reflexivity.
Qed.

(** X4. The command line ends with exactly one device option: the serial
    of the current item of the device list when that item is a device,
    [--select-usb] when the list shows the placeholder or nothing. *)
Theorem build_scrcpy_command_device (w : window) :
  (device_text w <> EmptyString -> device_text w <> no_devices ->
   exists front,
     build_scrcpy_command w = front ++ " --serial=" ++ device_text w) /\
  (device_text w = EmptyString \/ device_text w = no_devices ->
   exists front, build_scrcpy_command w = front ++ " --select-usb").
Proof.
  destruct (build_scrcpy_command_ends w) as [front Hends].
  rewrite Hends. split.
  - intros Hsome Hdevice. exists front.
    apply String.eqb_neq in Hdevice. rewrite Hdevice.
    destruct (device_text w); [contradiction|reflexivity].
  - intros Hnone. exists front.
    destruct Hnone as [->| ->]; reflexivity.
Qed.

Lemma build_scrcpy_command_device_witness :
  device_text (set_devices ["R58M12345"; "emulator-5554"] 1
                           (initial_window "./")) = "emulator-5554" /\
  exists front,
    build_scrcpy_command (set_devices ["R58M12345"; "emulator-5554"] 1
                                      (initial_window "./"))
    = front ++ " --serial=emulator-5554".
Proof.
  split; [reflexivity|].
  destruct (build_scrcpy_command_device
              (set_devices ["R58M12345"; "emulator-5554"] 1
                           (initial_window "./"))) as [Hserial _].
  apply Hserial; discriminate.
Defined.

Section Launch.

Variable env : os.

(** For a command of one of the two tools, the controller's resolution is
    the thread's. *)
Lemma in_scrcpy_folder_full_command pre cmd :
  re_match_adb_scrcpy cmd = true ->
  in_scrcpy_folder env pre cmd = full_command env cmd pre.
Proof.
  intros Hcmd. unfold in_scrcpy_folder, full_command. rewrite Hcmd.
  reflexivity.
Qed.

(** What the shell gets when the controller resolves a command of one of
    the two tools and the thread resolves it again. *)
Lemma launched_command pre cmd :
  In pre controller_prefixes ->
  re_match_adb_scrcpy cmd = true ->
  exists rest,
    log (snd (run env (init (in_scrcpy_folder env pre cmd) pre)))
    = Popen (in_scrcpy_folder env pre cmd) :: rest.
Proof.
  intros Hpre Hcmd.
  destruct (run_first_event env (init (in_scrcpy_folder env pre cmd) pre))
    as [rest Hlog].
  exists rest. rewrite Hlog. cbn [log init command cmd_prefix app].
  rewrite in_scrcpy_folder_full_command by exact Hcmd.
  rewrite resolved_twice by assumption. reflexivity.
Qed.

End Launch.

(** X5. [start_scrcpy] starts exactly one thread, and the first thing that
    thread does is hand the shell the command line of the widgets behind
    the controller's prefix, inside the [scrcpy] folder when there is
    one: the thread's own resolution adds nothing. The start button is
    disabled and the stop button enabled. *)
Theorem start_scrcpy_launches (env : os) (w : window) :
  In (controller_prefix (base w)) controller_prefixes ->
  exists thread rest,
    running_processes (base (start_scrcpy env w))
    = (running_processes (base w) ++ [thread])%list /\
    log (snd (run env thread))
    = Popen ((if isdir_scrcpy env then "cd scrcpy && " else EmptyString)
             ++ controller_prefix (base w) ++ build_scrcpy_command w)
      :: rest /\
    start_btn (start_scrcpy env w) = false /\
    stop_btn (start_scrcpy env w) = true.
Proof.
  intros Hpre.
  pose proof (build_scrcpy_command_matches w) as Hmatch.
  destruct (launched_command env (build_scrcpy_command w) Hpre Hmatch)
    as [rest Hlog].
  eexists. exists rest. split; [reflexivity|].
  split; [|split; reflexivity].
  cbn [base say set_base set_buttons write_to_terminal controller_prefix].
  rewrite Hlog. unfold in_scrcpy_folder.
  destruct (isdir_scrcpy env); reflexivity.
Qed.

Lemma start_scrcpy_launches_witness :
  In (controller_prefix (base (initial_window "./"))) controller_prefixes /\
  exists thread rest,
    running_processes (base (start_scrcpy adb_os (initial_window "./")))
    = [thread] /\
    log (snd (run adb_os thread))
    = Popen ("cd scrcpy && ./"
             ++ build_scrcpy_command (initial_window "./")) :: rest /\
    start_btn (start_scrcpy adb_os (initial_window "./")) = false /\
    stop_btn (start_scrcpy adb_os (initial_window "./")) = true.
Proof.
  assert (Hpre : In (controller_prefix (base (initial_window "./")))
                    controller_prefixes)
    by (right; right; left; reflexivity).
  split; [exact Hpre|].
  exact (@start_scrcpy_launches adb_os (initial_window "./") Hpre).
Defined.

(** X6. [test_devices] starts exactly one thread, whose first action is to
    hand the shell [adb devices] behind the controller's prefix, inside
    the [scrcpy] folder when there is one; the widgets other than the
    terminal are left as they are. *)
Theorem test_devices_launches (env : os) (w : window) :
  In (controller_prefix (base w)) controller_prefixes ->
  exists thread rest,
    running_processes (base (test_devices env w))
    = (running_processes (base w) ++ [thread])%list /\
    log (snd (run env thread))
    = Popen ((if isdir_scrcpy env then "cd scrcpy && " else EmptyString)
             ++ controller_prefix (base w) ++ "adb devices")
      :: rest /\
    device_items (test_devices env w) = device_items w /\
    start_btn (test_devices env w) = start_btn w /\
    stop_btn (test_devices env w) = stop_btn w.
Proof.
  intros Hpre.
  destruct (@launched_command env (controller_prefix (base w)) "adb devices"
              Hpre eq_refl) as [rest Hlog].
  eexists. exists rest. split; [reflexivity|].
  split; [|repeat split; reflexivity].
  cbn [base say set_base write_to_terminal controller_prefix].
  rewrite Hlog. unfold in_scrcpy_folder.
  destruct (isdir_scrcpy env); reflexivity.
Qed.

Lemma test_devices_launches_witness :
  In (controller_prefix (base (initial_window EmptyString)))
     controller_prefixes /\
  exists thread rest,
    running_processes (base (test_devices adb_os
                                          (initial_window EmptyString)))
    = [thread] /\
    log (snd (run adb_os thread))
    = Popen "cd scrcpy && adb devices" :: rest /\
    device_items (test_devices adb_os (initial_window EmptyString))
    = [no_devices] /\
    start_btn (test_devices adb_os (initial_window EmptyString)) = true /\
    stop_btn (test_devices adb_os (initial_window EmptyString)) = false.
Proof.
  assert (Hpre : In (controller_prefix (base (initial_window EmptyString)))
                    controller_prefixes)
    by (left; reflexivity).
  split; [exact Hpre|].
  exact (@test_devices_launches adb_os (initial_window EmptyString) Hpre).
Defined.

(** * The device list *)

Section Stripping.

Lemma rstrip_idempotent s : rstrip (rstrip s) = rstrip s.
Proof.
  induction s as [|c s IH]; [reflexivity|].
  cbn [rstrip]. destruct (rstrip s) as [|k kept] eqn:Hkept.
  - destruct (isspace c) eqn:Hc; [reflexivity|].
    cbn [rstrip]. rewrite Hc. reflexivity.
  - cbn [rstrip]. cbn [rstrip] in IH. 
    destruct (rstrip kept) as [|k' kept'] eqn:Hkept'.
    + destruct (isspace k); [discriminate IH|]. rewrite IH. reflexivity.
    + rewrite IH. reflexivity.
Qed.

(** A text that begins with a character that is not a blank still does
    after [rstrip]. *)
Lemma rstrip_keeps_head c s :
  isspace c = false ->
  exists kept, rstrip (String c s) = String c kept.
Proof.
  intros Hc. cbn [rstrip]. rewrite Hc.
  destruct (rstrip s); eexists; reflexivity.
Qed.

Lemma lstrip_head s :
  lstrip s = EmptyString \/
  exists c rest, lstrip s = String c rest /\ isspace c = false.
Proof.
  induction s as [|c s IH]; [left; reflexivity|].
  cbn [lstrip]. destruct (isspace c) eqn:Hc; [exact IH|].
  right. exists c, s. split; [reflexivity|exact Hc].
Qed.

Lemma lstrip_no_blank_head c s :
  isspace c = false -> lstrip (String c s) = String c s.
Proof. intros Hc. cbn [lstrip]. rewrite Hc. reflexivity. Qed.

Lemma strip_idempotent s : strip (strip s) = strip s.
Proof.
  unfold strip. destruct (lstrip_head s) as [->|(c & rest & -> & Hc)];
    [reflexivity|].
  destruct (@rstrip_keeps_head c rest Hc) as [kept Hkept].
  rewrite Hkept, (@lstrip_no_blank_head c kept Hc), <- Hkept.
  apply rstrip_idempotent.
Qed.

(** Stripping only removes characters. *)
Lemma rstrip_chars c s :
  In c (list_ascii_of_string (rstrip s)) -> In c (list_ascii_of_string s).
Proof.
  induction s as [|a s IH]; [exact (fun H => H)|].
  cbn [rstrip]. destruct (rstrip s) as [|k kept].
  - destruct (isspace a); [intros []|].
    intros [<-|[]]. left. reflexivity.
  - intros [<-|Hin]; [left; reflexivity|right; exact (IH Hin)].
Qed.

Lemma lstrip_chars c s :
  In c (list_ascii_of_string (lstrip s)) -> In c (list_ascii_of_string s).
Proof.
  induction s as [|a s IH]; [exact (fun H => H)|].
  cbn [lstrip]. destruct (isspace a); [|exact (fun H => H)].
  intros Hin. right. exact (IH Hin).
Qed.

Lemma strip_chars c s :
  In c (list_ascii_of_string (strip s)) -> In c (list_ascii_of_string s).
Proof. intros Hin. apply lstrip_chars, rstrip_chars, Hin. Qed.



End Stripping.

Section Splitting.

Variable sep : ascii.

Lemma split_on_nonempty s : split_on sep s <> [].
Proof.
  destruct s as [|c s]; [discriminate|].
  cbn [split_on]. destruct (Ascii.eqb c sep); [discriminate|].
  destruct (split_on sep s); discriminate.
Qed.



(** No part holds the separator. *)
Lemma split_on_parts s :
  Forall (fun part => ~ In sep (list_ascii_of_string part)) (split_on sep s).
Proof.
  induction s as [|c s IH]; [repeat constructor; intros []|].
  cbn [split_on]. destruct (Ascii.eqb_spec c sep) as [->|Hne].
  - constructor; [intros []|exact IH].
  - destruct (split_on sep s) as [|first others].
    + constructor; [|constructor]. intros [Heq|[]]. congruence.
    + inversion IH as [|? ? Hfirst Hothers]; subst.
      constructor; [|exact Hothers].
      intros [Heq|Hin]; [congruence|exact (Hfirst Hin)].
Qed.

End Splitting.

Section Containing.



End Containing.

Section Devices.

Lemma split_on_chars sep c s :
  forall part,
    In part (split_on sep s) ->
    In c (list_ascii_of_string part) -> In c (list_ascii_of_string s).
Proof.
  induction s as [|a s IH]; intros part Hpart Hc.
  - destruct Hpart as [<-|[]]. exact Hc.
  - cbn [split_on] in Hpart. destruct (Ascii.eqb a sep).
    + destruct Hpart as [<-|Hpart]; [destruct Hc|].
      right. exact (IH part Hpart Hc).
    + destruct (split_on sep s) as [|first others].
      * destruct Hpart as [<-|[]]. destruct Hc as [<-|[]]. left. reflexivity.
      * destruct Hpart as [<-|Hpart].
        -- destruct Hc as [<-|Hc]; [left; reflexivity|].
           right. apply (IH first); [left; reflexivity|exact Hc].
        -- right. apply (IH part); [right; exact Hpart|exact Hc].
Qed.

Lemma hd_split_on_in sep s :
  In (hd EmptyString (split_on sep s)) (split_on sep s).
Proof.
  pose proof (@split_on_nonempty sep s) as Hne.
  destruct (split_on sep s); [contradiction|left; reflexivity].
Qed.

Lemma scan_line_app devices line :
  scan_line devices line = (devices ++ line_devices line)%list.
Proof.
  unfold line_devices, scan_line.
  destruct (contains (String tab "device") line); [|symmetry; apply app_nil_r].
  destruct (truthy (strip (hd EmptyString (split_on tab line)))
            && negb (String.eqb (strip (hd EmptyString (split_on tab line)))
                                "List of devices attached"));
    [reflexivity|symmetry; apply app_nil_r].
Qed.

Lemma fold_scan_line lines :
  forall devices,
    fold_left scan_line lines devices
    = (devices ++ flat_map line_devices lines)%list.
Proof.
  induction lines as [|line lines IH]; intros devices.
  - symmetry. apply app_nil_r.
  - cbn [fold_left flat_map]. rewrite IH, scan_line_app, app_assoc.
    reflexivity.
Qed.

Lemma found_devices_lines text :
  found_devices text = flat_map line_devices (split_on newline text).
Proof. unfold found_devices. apply fold_scan_line. Qed.


(** What one line contributes is a clean serial. *)
Lemma line_devices_clean text line :
  In line (split_on newline text) ->
  Forall (fun id => clean_serial id = true) (line_devices line).
Proof.
  intros Hline. unfold line_devices, scan_line.
  destruct (contains (String tab "device") line); [|constructor].
  set (id := strip (hd EmptyString (split_on tab line))).
  destruct (truthy id) eqn:Htruthy; [|constructor].
  destruct (String.eqb id "List of devices attached") eqn:Hheader;
    [constructor|].
  cbn [andb negb app]. constructor; [|constructor].
  unfold clean_serial. rewrite Htruthy, Hheader.
  unfold id at 1 2. rewrite strip_idempotent, String.eqb_refl.
  cbn [andb negb]. rewrite andb_true_r.
  apply negb_true_iff. apply not_true_is_false. intros Hex.
  apply existsb_exists in Hex. destruct Hex as (c & Hc & Hsep).
  apply strip_chars in Hc.
  apply orb_true_iff in Hsep. destruct Hsep as [Htab|Hnl].
  - apply Ascii.eqb_eq in Htab. subst c.
    pose proof (split_on_parts tab line) as Hparts.
    rewrite Forall_forall in Hparts.
    exact (Hparts _ (hd_split_on_in tab line) Hc).
  - apply Ascii.eqb_eq in Hnl. subst c.
    pose proof (split_on_parts newline text) as Hparts.
    rewrite Forall_forall in Hparts.
    apply (Hparts _ Hline).
    exact (split_on_chars tab newline line _ (hd_split_on_in tab line) Hc).
Qed.


(** Whatever is found on a text is a clean serial. *)
Lemma found_devices_clean_lemma text :
  Forall (fun id => clean_serial id = true) (found_devices text).
Proof.
  rewrite found_devices_lines, Forall_forall. intros id Hid.
  apply in_flat_map in Hid. destruct Hid as (line & Hline & Hid).
  pose proof (line_devices_clean text line Hline) as Hclean.
  rewrite Forall_forall in Hclean. exact (Hclean id Hid).
Qed.

End Devices.



Section RoundTrip.






End RoundTrip.



(** * From the thread to the window *)

Section Delivery.

Variable env : os.


Lemma deliver_all_app s l1 l2 w :
  deliver_all s (l1 ++ l2) w = deliver_all s l2 (deliver_all s l1 w).
Proof. apply fold_left_app. Qed.



Lemma says_keep_widgets lines :
  forall w,
    device_items (fold_left (fun w text => say text w) lines w)
    = device_items w.
Proof.
  induction lines as [|text lines IH]; intros w; [reflexivity|].
  cbn [fold_left]. rewrite IH. reflexivity.
Qed.






End Delivery.



(** * What every action keeps *)

Section Invariants.

Variable env : os.

(** A text that starts with a character that is not a blank is not blank. *)
Lemma not_blank_head c s : isspace c = false -> not_blank (String c s).
Proof.
  intros Hc. unfold not_blank, strip.
  rewrite (@lstrip_no_blank_head c s Hc).
  destruct (@rstrip_keeps_head c s Hc) as [kept ->]. discriminate.
Qed.

Lemma not_blank_strip s : strip s <> EmptyString -> not_blank (strip s).
Proof. unfold not_blank. rewrite strip_idempotent. exact (fun H => H). Qed.

(** What the controller resolves is not blank. *)
Lemma in_scrcpy_folder_not_blank pre cmd :
  In pre controller_prefixes ->
  re_match_adb_scrcpy cmd = true ->
  not_blank (in_scrcpy_folder env pre cmd).
Proof.
  intros Hpre Hcmd. unfold in_scrcpy_folder.
  destruct (isdir_scrcpy env); [apply not_blank_head; reflexivity|].
  destruct Hpre as [<-|[<-|[<-|[]]]];
    try (apply not_blank_head; reflexivity).
  cbn [String.append]. unfold re_match_adb_scrcpy in Hcmd.
  apply orb_true_iff in Hcmd.
  destruct Hcmd as [Hcmd|Hcmd]; apply prefix_iff in Hcmd;
    destruct Hcmd as [tail ->]; apply not_blank_head; reflexivity.
Qed.

Lemma sound_say text w : sound w -> sound (say text w).
Proof. intros [Hindex Hitems Hpre Hthreads]. constructor; assumption. Qed.

Lemma sound_start_thread thread w :
  not_blank (command thread) ->
  cmd_prefix thread = controller_prefix (base w) ->
  sound w -> sound (start_thread thread w).
Proof.
  intros Hcommand Hprefix [Hindex Hitems Hpre Hthreads].
  constructor; try assumption.
  cbn [start_thread set_base base running_processes controller_prefix].
  apply Forall_app. split; [exact Hthreads|].
  constructor; [split; assumption|constructor].
Qed.

Lemma sound_parse_devices code w : sound w -> sound (parse_devices code w).
Proof.
  intros Hsound. unfold parse_devices.
  destruct (code =? 0); [|exact Hsound].
  pose proof (found_devices_clean_lemma (toPlainText w)) as Hclean.
  destruct Hsound as [Hindex Hitems Hpre Hthreads].
  destruct (found_devices (toPlainText w)) as [|d found];
    apply sound_say; constructor; try assumption.
  - cbn. apply Nat.lt_0_1.
  - constructor; [left; reflexivity|constructor].
  - cbn. apply Nat.lt_0_succ.
  - cbn [set_devices device_items].
    eapply Forall_impl; [|exact Hclean]. intros item Hitem. right. exact Hitem.
Qed.

Lemma sound_submit w : sound w -> sound (submit w).
Proof.
  intros Hsound. unfold submit, submit_command.
  destruct (truthy (strip (command_input (base w)))) eqn:Hblank;
    cbn [negb snd].
  - destruct Hsound as [Hindex Hitems Hpre Hthreads].
    constructor; try assumption.
    cbn [set_base base running_processes controller_prefix
         write_to_terminal].
    apply Forall_app. split; [exact Hthreads|].
    constructor; [|constructor]. split; [|reflexivity].
    cbn [init command]. apply not_blank_strip.
    intros Hempty. rewrite Hempty in Hblank. discriminate.
  - destruct Hsound as [Hindex Hitems Hpre Hthreads]. destruct w.
    constructor; assumption.
Qed.

Lemma sound_perform a w : sound w -> sound (perform env w a).
Proof.
  intros Hsound. destruct a as [text|b f t m s|index| | | |s e]; cbn [perform].
  - destruct Hsound as [Hindex Hitems Hpre Hthreads].
    constructor; assumption.
  - destruct Hsound as [Hindex Hitems Hpre Hthreads].
    constructor; assumption.
  - destruct (Nat.ltb_spec index (List.length (device_items w)))
      as [Hlt|Hge]; [|exact Hsound].
    destruct Hsound as [Hindex Hitems Hpre Hthreads].
    constructor; assumption.
  - apply sound_submit, Hsound.
  - unfold test_devices. apply sound_start_thread.
    + cbn [init command]. apply in_scrcpy_folder_not_blank;
        [exact (sound_prefix Hsound)|reflexivity].
    + reflexivity.
    + apply sound_say, Hsound.
  - unfold start_scrcpy. apply sound_start_thread.
    + cbn [init command]. apply in_scrcpy_folder_not_blank;
        [exact (sound_prefix Hsound)|apply build_scrcpy_command_matches].
    + reflexivity.
    + match goal with
      | |- sound (set_buttons _ _ (say ?text _)) =>
          destruct (@sound_say text w Hsound)
            as [Hindex Hitems Hpre Hthreads]
      end.
      constructor; assumption.
  - destruct e; cbn [deliver]; try exact Hsound.
    + apply sound_say, Hsound.
    + destruct s; cbn [on_finished].
      * apply sound_parse_devices, Hsound.
      * unfold on_scrcpy_finished. apply sound_say.
        destruct Hsound as [Hindex Hitems Hpre Hthreads].
        destruct (running_processes (base (set_buttons true (stop_btn w) w)));
          constructor; assumption.
      * apply sound_say, Hsound.
Qed.

Lemma sound_perform_all actions :
  forall w, sound w -> sound (perform_all env actions w).
Proof.
  unfold perform_all.
  induction actions as [|a actions IH]; intros w Hsound; [exact Hsound|].
  cbn [fold_left]. apply IH, sound_perform, Hsound.
Qed.

Lemma sound_initial pre :
  In pre controller_prefixes -> sound (initial_window pre).
Proof.
  intros Hpre. constructor.
  - cbn. apply Nat.lt_0_1.
  - constructor; [left; reflexivity|constructor].
  - exact Hpre.
  - constructor.
Qed.

End Invariants.

Section Buttons.

Variable env : os.

(** The threads of the window are never fewer after an action, and Start
    Scrcpy adds one. *)
Lemma perform_keeps_threads a w :
  exists started,
    running_processes (base (perform env w a))
    = (running_processes (base w) ++ started)%list /\
    (is_start a = true -> started <> []).
Proof.
  destruct a as [text|b f t m s|index| | | |s e]; cbn [perform is_start].
  - exists []. split; [symmetry; apply app_nil_r|discriminate].
  - exists []. split; [symmetry; apply app_nil_r|discriminate].
  - exists []. split; [|discriminate].
    destruct (index <? List.length (device_items w))%nat;
      symmetry; apply app_nil_r.
  - unfold submit, submit_command.
    destruct (negb (truthy (strip (command_input (base w)))));
      eexists; (split; [|discriminate]); cbn;
      [symmetry; apply app_nil_r|reflexivity].
  - eexists. split; [reflexivity|discriminate].
  - eexists. split; [reflexivity|discriminate].
  - exists []. split; [|discriminate].
    rewrite app_nil_r. destruct e; try reflexivity.
    destruct s; cbn [deliver on_finished].
    + unfold parse_devices. destruct (code =? 0); [|reflexivity].
      destruct (found_devices (toPlainText w)); reflexivity.
    + destruct w as [[input prefix terminal threads] ? ? ? ? ? ? ? ? ?].
      unfold on_scrcpy_finished. cbn. destruct threads; reflexivity.
    + reflexivity.
Qed.

(** The stop button after one action. *)
Lemma perform_stop_btn a w :
  (stop_btn w = true -> running_processes (base w) <> []) ->
  stop_btn (perform env w a) = stop_btn w || is_start a.
Proof.
  intros Hthreads.
  destruct a as [text|b f t m s|index| | | |s e]; cbn [perform is_start];
    try (rewrite orb_false_r); try reflexivity.
  - destruct (index <? List.length (device_items w))%nat; reflexivity.
  - rewrite orb_true_r. reflexivity.
  - destruct e; try reflexivity. destruct s; cbn [deliver on_finished].
    + unfold parse_devices. destruct (code =? 0); [|reflexivity].
      destruct (found_devices (toPlainText w)); reflexivity.
    + destruct w as [[input prefix terminal threads] ? ? ? ? ? ? ? ? stop].
      unfold on_scrcpy_finished. cbn in *.
      destruct threads; [|reflexivity].
      destruct stop; [|reflexivity].
      exfalso. exact (Hthreads eq_refl eq_refl).
    + reflexivity.
Qed.

Lemma perform_all_stop_btn actions :
  forall w,
    (stop_btn w = true -> running_processes (base w) <> []) ->
    stop_btn (perform_all env actions w)
    = stop_btn w || existsb is_start actions.
Proof.
  unfold perform_all.
  induction actions as [|a actions IH]; intros w Hthreads.
  - symmetry. apply orb_false_r.
  - cbn [fold_left existsb]. rewrite IH.
    + rewrite (perform_stop_btn a w Hthreads). symmetry. apply orb_assoc.
    + rewrite (perform_stop_btn a w Hthreads).
      destruct (perform_keeps_threads a w) as (started & -> & Hstarted).
      intros Hstop Happ. apply app_eq_nil in Happ.
      destruct Happ as [Hnone Hnothing].
      apply orb_true_iff in Hstop. destruct Hstop as [Hstop|Hstart].
      * exact (Hthreads Hstop Hnone).
      * exact (Hstarted Hstart Hnothing).
Qed.

End Buttons.

(** X11. Whatever the user does and whatever signals arrive (short of
    Stop All and Run Audio), the device list is never empty and its
    current item is the placeholder or a clean serial, so the command
    line always ends with [--select-usb] or with the serial of a device
    that was read off the terminal. *)
Theorem device_option_always_valid (env : os) (pre : string)
  (actions : list action) :
  In pre controller_prefixes ->
  In (device_text (perform_all env actions (initial_window pre)))
     (device_items (perform_all env actions (initial_window pre))) /\
  exists front,
    (device_text (perform_all env actions (initial_window pre)) = no_devices
     /\ build_scrcpy_command (perform_all env actions (initial_window pre))
        = front ++ " --select-usb")
    \/
    (clean_serial (device_text (perform_all env actions (initial_window pre)))
     = true
     /\ build_scrcpy_command (perform_all env actions (initial_window pre))
        = front ++ " --serial="
          ++ device_text (perform_all env actions (initial_window pre))).
Proof.
  intros Hpre.
  pose proof (sound_perform_all env actions (sound_initial Hpre)) as Hsound.
  set (w := perform_all env actions (initial_window pre)) in *.
  destruct Hsound as [Hindex Hitems _ _].
  assert (Hin : In (device_text w) (device_items w))
    by (apply nth_In; exact Hindex).
  split; [exact Hin|].
  destruct (build_scrcpy_command_ends w) as [front Hends].
  exists front. rewrite Hends.
  rewrite Forall_forall in Hitems.
  destruct (String.eqb_spec (device_text w) no_devices) as [Hnone|Hsome].
  - left. split; [exact Hnone|reflexivity].
  - right. destruct (Hitems _ Hin) as [Hnone|Hclean]; [contradiction|].
    split; [exact Hclean|].
    unfold clean_serial in Hclean.
    destruct (truthy (device_text w)); [reflexivity|discriminate].
Qed.

Lemma device_option_always_valid_witness :
  In "./" controller_prefixes /\
  exists front,
    build_scrcpy_command (perform_all phone_os seen_device
                                      (initial_window "./"))
    = front ++ " --serial=emulator-5554".
Proof.
  assert (Hpre : In "./" controller_prefixes)
    by (right; right; left; reflexivity).
  split; [exact Hpre|].
  destruct (@device_option_always_valid phone_os "./" seen_device Hpre)
    as [_ [front [[Hnone _]|[_ Hbuild]]]].
  - vm_compute in Hnone. discriminate Hnone.
  - exists front. rewrite Hbuild. reflexivity.
Defined.



(** X13. Short of Stop All and Run Audio, the stop button is enabled
    exactly when Start Scrcpy has been clicked at some time: the commands
    of Submit and Test Devices never enable it, and once it is enabled
    the end of every scrcpy does not disable it, because finished threads
    stay in [running_processes]. *)
Theorem stop_button_follows_start (env : os) (pre : string)
  (actions : list action) :
  stop_btn (perform_all env actions (initial_window pre))
  = existsb is_start actions.
Proof.
  rewrite perform_all_stop_btn; [reflexivity|]. discriminate.
Qed.

(** * Interrupted runs *)

Section Traces.

Variable env : os.

Lemma run_body_trace fuel w : wp (run_body env fuel) (body_trace env w) w.
Proof.
  unfold run_body.
  apply wp_bind, wp_get. unfold after. apply wp_bind, wp_get. unfold after.
  set (fc := full_command env (command w) (cmd_prefix w)).
  apply wp_bind, wp_popen.
  { intros msg Hfault. exists []. split; [reflexivity|]. left. auto. }
  intros Hpopen. destruct (spawn env fc) as [c|msg] eqn:Hspawn.
  2:{ exists []. split; [reflexivity|]. left. auto. }
  unfold after. set (w1 := attach c (record (Popen fc) w)).
  apply wp_bind. eapply wp_conseq; [|apply read_loop_post].
  intros r w2 [evs Hlog Hkind Hproc _ _ Hres]. unfold after.
  change (stdout_pending w1) with (child_stdout c) in Hkind.
  change (process w1) with (Some c) in Hproc.
  assert (Hlog2 : log w2 = (log w ++ Popen fc :: evs)%list).
  { rewrite Hlog. simpl. rewrite <- app_assoc. reflexivity. }
  destruct r as [[]|msg|]; [| |exists evs; split; [exact Hlog2|exact I]].
  2:{ exists evs. split; [exact Hlog2|]. right. exists c.
      destruct Hres as [Hfault|Hnone]; [|discriminate Hnone].
      repeat split; auto. constructor. exact Hkind. }
  destruct Hres as [[before ->] _].
  apply Forall_app in Hkind. destruct Hkind as [Hbefore _].
  apply wp_bind, wp_stderr_read.
  { intros msg Hfault. eexists. split.
    - cbn [log record]. rewrite Hlog2. same_log.
    - right. exists c. repeat split; eauto.
      exact (InStderrRead c Hbefore). }
  intros _. rewrite Hproc. unfold after.
  apply wp_bind, wp_emit_if. unfold after.
  match goal with |- wp _ _ ?w => set (w3 := w) end.
  assert (Hproc3 : process w3 = Some c).
  { unfold w3. destruct (truthy (child_stderr c)); simpl; rewrite Hproc;
      reflexivity. }
  assert (Hlog3 : log w3
                  = (log w ++ Popen fc :: before
                     ++ [Readline; Poll; StderrRead]
                     ++ stderr_report c)%list).
  { unfold w3, stderr_report. destruct (truthy (child_stderr c));
      cbn [log record]; rewrite Hlog2; same_log. }
  clearbody w3.
  apply wp_bind, wp_process_wait.
  { intros msg Hfault. eexists. split.
    - cbn [log record]. rewrite Hlog3. same_log.
    - right. exists c. repeat split; eauto.
      exact (InWait c Hbefore). }
  intros _. rewrite Hproc3. unfold after.
  apply wp_bind, wp_emit. unfold after. apply wp_emit.
  eexists. split.
  - cbn [log record set_alive]. rewrite Hlog3. same_log.
  - exists c. split; [exact Hspawn|exact Hproc3].
Qed.

End Traces.

Section RunTraces.

Variable env : os.

(** The two ways [run] can end, with the process handle it leaves. *)
Lemma run_trace w :
  (completes_normally env w /\
   exists c,
     spawn env (full_command env (command w) (cmd_prefix w)) = Returned c /\
     process (snd (run env w)) = Some c)
  \/
  (~ completes_normally env w /\
   exists msg before,
     log (snd (run env w))
     = (log w ++ Popen (full_command env (command w) (cmd_prefix w))
        :: before ++ [Output (exception_line msg); Finished (-1)])%list /\
     ((before = [] /\ process (snd (run env w)) = process w /\
       (fault env (List.length (log w)) = Some msg
        \/ spawn env (full_command env (command w) (cmd_prefix w))
           = Raised msg))
      \/
      (exists c,
          fault env (List.length (log w)) = None /\
          spawn env (full_command env (command w) (cmd_prefix w))
          = Returned c /\
          process (snd (run env w)) = Some c /\
          interrupted c before /\
          exists n, fault env n = Some msg))).
Proof.
  pose proof (run_body_trace env
                (enough_fuel env (command w) (cmd_prefix w)) w) as Htrace.
  pose proof (run_body_post env
                (enough_fuel env (command w) (cmd_prefix w)) w) as Hpost.
  unfold wp in Htrace, Hpost.
  unfold completes_normally, run, run_fuel, try_except.
  destruct (run_body env (enough_fuel env (command w) (cmd_prefix w)) w)
    as [r w'].
  cbn [fst snd] in *. destruct r as [[]|msg|].
  - left. split; [reflexivity|].
    destruct Htrace as (evs & _ & c & Hspawn & Hproc). exists c. auto.
  - right. split; [discriminate|].
    destruct Htrace as (evs & Hlog & Hcases). exists msg, evs.
    unfold run_handler, bind, emit. cbn [fst snd log record process].
    split; [rewrite Hlog; unfold exception_line; same_log|exact Hcases].
  - exfalso. destruct Hpost as (evs & _ & c & Hspawn & Hfuel).
    unfold enough_fuel in Hfuel. rewrite Hspawn in Hfuel. lia.
Qed.

Lemma loop_events_no_popen lines evs :
  Forall (loop_event lines) evs -> filter is_popen evs = [].
Proof.
  induction 1 as [|e evs He _ IH]; [reflexivity|].
  cbn [filter]. rewrite IH.
  destruct He as [->|[->|[t [-> _]]]]; reflexivity.
Qed.

Lemma stderr_report_no_popen c : filter is_popen (stderr_report c) = [].
Proof.
  unfold stderr_report. destruct (truthy (child_stderr c)); reflexivity.
Qed.

Lemma interrupted_no_popen c evs :
  interrupted c evs -> filter is_popen evs = [].
Proof.
  intros [loop_evs Hloop|loop_evs Hloop|loop_evs Hloop];
    rewrite ?filter_app, ?stderr_report_no_popen,
            (loop_events_no_popen Hloop); reflexivity.
Qed.

(** The outputs of an interrupted body are the child's. *)
Lemma interrupted_outputs c evs text :
  interrupted c evs ->
  In (Output text) evs ->
  In text (child_stdout c) \/ stderr_report c = [Output text].
Proof.
  assert (Hloop_out : forall loop_evs,
             Forall (loop_event (child_stdout c)) loop_evs ->
             In (Output text) loop_evs -> In text (child_stdout c)).
  { intros loop_evs Hloop Hin. rewrite Forall_forall in Hloop.
    destruct (Hloop _ Hin) as [Habs|[Habs|[t [Heq Ht]]]]; try discriminate.
    injection Heq as ->. exact Ht. }
  assert (Hreport : In (Output text) (stderr_report c) ->
                    stderr_report c = [Output text]).
  { unfold stderr_report. destruct (truthy (child_stderr c)).
    - intros [<-|[]]. reflexivity.
    - intros []. }
  intros [loop_evs Hloop|loop_evs Hloop|loop_evs Hloop] Hin.
  - left. eauto.
  - apply in_app_or in Hin. destruct Hin as [Hin|Hin]; [left; eauto|].
    cbn in Hin. repeat (destruct Hin as [Hin|Hin]; [discriminate Hin|]).
    destruct Hin.
  - apply in_app_or in Hin. destruct Hin as [Hin|Hin]; [left; eauto|].
    cbn [app In] in Hin.
    repeat (destruct Hin as [Hin|Hin]; [discriminate Hin|]).
    apply in_app_or in Hin. destruct Hin as [Hin|Hin]; [right; auto|].
    cbn in Hin. repeat (destruct Hin as [Hin|Hin]; [discriminate Hin|]).
    destruct Hin.
Qed.

End RunTraces.

(** X14. A run spawns once: among the events it adds to the log exactly
    one is a [Popen], the very first, whether the run completes or a
    library call raises on the way. *)
Theorem run_spawns_once (env : os) (w : world) :
  exists rest,
    log (snd (run env w))
    = (log w ++ Popen (full_command env (command w) (cmd_prefix w))
       :: rest)%list /\
    filter is_popen rest = [].
Proof.
  destruct (run_trace env w) as [[Hnormal _]|[_ Hhandled]].
  - destruct (normal_run_log Hnormal) as (c & loop_evs & _ & Hloop & ->).
    eexists. split; [reflexivity|].
    rewrite !filter_app, stderr_report_no_popen,
            (loop_events_no_popen Hloop).
    reflexivity.
  - destruct Hhandled as (msg & before & -> & Hcases).
    eexists. split; [reflexivity|]. rewrite filter_app.
    destruct Hcases as [(-> & _)|(c & _ & _ & _ & Hint & _)];
      [reflexivity|].
    rewrite (interrupted_no_popen Hint). reflexivity.
Qed.

(** X15. When the body of [run] does not reach its last statement, the
    outputs already emitted stay and are all the child's own (lines of
    its stdout, or the report of its stderr); then comes one line with
    the text of the exception, then the completion with -1. *)
Theorem run_interrupted_reports (env : os) (w : world) :
  ~ completes_normally env w ->
  exists msg before,
    log (snd (run env w))
    = (log w ++ Popen (full_command env (command w) (cmd_prefix w))
       :: before
       ++ [Output ("Exception: " ++ msg ++ nl); Finished (-1)])%list /\
    ((exists n, fault env n = Some msg)
     \/ spawn env (full_command env (command w) (cmd_prefix w))
        = Raised msg) /\
    forall text,
      In (Output text) before ->
      exists c,
        spawn env (full_command env (command w) (cmd_prefix w))
        = Returned c /\
        (In text (child_stdout c) \/ stderr_report c = [Output text]).
Proof.
  intros Hnot.
  destruct (run_trace env w) as [[Hnormal _]|[_ Hhandled]];
    [contradiction|].
  destruct Hhandled as (msg & before & Hlog & Hcases).
  exists msg, before. split; [exact Hlog|].
  destruct Hcases as [(-> & _ & Hcause)|(c & _ & Hspawn & _ & Hint & Hfault)].
  - split; [destruct Hcause; eauto|]. intros text [].
  - split; [left; exact Hfault|].
    intros text Hin. exists c. split; [exact Hspawn|].
    exact (@interrupted_outputs c before text Hint Hin).
Qed.

Lemma run_interrupted_reports_witness :
  ~ completes_normally flaky_os adb_thread /\
  exists msg before,
    log (snd (run flaky_os adb_thread))
    = (Popen "./adb devices" :: before
       ++ [Output ("Exception: " ++ msg ++ nl); Finished (-1)])%list /\
    ((exists n, fault flaky_os n = Some msg)
     \/ spawn flaky_os "./adb devices" = Raised msg) /\
    forall text,
      In (Output text) before ->
      exists c,
        spawn flaky_os "./adb devices" = Returned c /\
        (In text (child_stdout c) \/ stderr_report c = [Output text]).
Proof.
  assert (Hnot : ~ completes_normally flaky_os adb_thread)
    by (intros Hnormal; vm_compute in Hnormal; discriminate Hnormal).
  split; [exact Hnot|].
  exact (@run_interrupted_reports flaky_os adb_thread Hnot).
Defined.

(** X16. [run] never clears [self.process]: once [Popen] has returned a
    handle, the thread still holds it when [run] is over, both after a
    normal completion and after an exception. *)
Theorem run_keeps_process_handle (env : os) (w : world) (c : child) :
  fault env (List.length (log w)) = None ->
  spawn env (full_command env (command w) (cmd_prefix w)) = Returned c ->
  process (snd (run env w)) = Some c.
Proof.
  intros Hfault Hspawn.
  destruct (run_trace env w)
    as [[_ (c' & Hspawn' & Hproc)]|[_ (msg & before & _ & Hcases)]].
  - rewrite Hproc. congruence.
  - destruct Hcases
      as [(_ & _ & [Habs|Habs])|(c' & _ & Hspawn' & Hproc & _)];
      congruence.
Qed.

Lemma run_keeps_process_handle_witness :
  fault flaky_os (List.length (log adb_thread)) = None /\
  spawn flaky_os "./adb devices" = Returned two_lines_child /\
  fst (run_body flaky_os 4 adb_thread)
  = Exn "'utf-8' codec can't decode byte 0xff" /\
  process (snd (run flaky_os adb_thread)) = Some two_lines_child.
Proof.
  split; [reflexivity|]. split; [reflexivity|]. split; [reflexivity|].
  apply (@run_keeps_process_handle flaky_os adb_thread two_lines_child);
    reflexivity.
Defined.

(** * From the click to the finish line *)

Section FinishLine.

Variable env : os.

(** Before the completion only outputs reach the window, whatever the
    slot. *)
Lemma deliver_all_quiet s l :
  Forall quiet l ->
  forall w,
    deliver_all s l w
    = fold_left (fun w text => say text w) (outputs_of l) w.
Proof.
  unfold deliver_all, outputs_of.
  induction 1 as [|e l He _ IH]; intros w; [reflexivity|].
  destruct e; try (cbn [fold_left deliver flat_map app]; apply IH).
  discriminate He.
Qed.



(** The window after the whole log of a run has been delivered: the
    outputs, then the slot of the completion. *)
Lemma deliver_run s thread w :
  exists before code,
    log (snd (run env thread))
    = (log thread ++ before ++ [Finished code])%list /\
    Forall quiet before /\
    (log thread = [] ->
     deliver_all s (log (snd (run env thread))) w
     = on_finished s code
         (fold_left (fun w text => say text w) (outputs_of before) w)).
Proof.
  destruct (run_ends_with_finished env thread)
    as (_ & before & code & Hlog & Hquiet).
  exists before, code. split; [exact Hlog|]. split; [exact Hquiet|].
  intros Hfresh. rewrite Hlog, Hfresh. cbn [app].
  rewrite deliver_all_app, (deliver_all_quiet s Hquiet). reflexivity.
Qed.



End FinishLine.




(** X19. When the thread of Test Devices completes with a code other than
    zero, be it the exit code of [adb] or the -1 of an exception, the
    device list is left as it was, current item included: only the
    terminal shows what happened. *)
Theorem test_devices_failure_keeps_list (env : os) (w : window)
  (thread : world) (code : Z) :
  running_processes (base (test_devices env w))
  = (running_processes (base w) ++ [thread])%list ->
  In (Finished code) (log (snd (run env thread))) ->
  code <> 0 ->
  device_items (deliver_all ParseDevices (log (snd (run env thread)))
                            (test_devices env w)) = device_items w /\
  device_index (deliver_all ParseDevices (log (snd (run env thread)))
                            (test_devices env w)) = device_index w.
Proof.
  intros Hthread Hfinished Hcode.
  assert (Hfresh : log thread = []).
  { cbn [test_devices start_thread set_base base running_processes]
      in Hthread.
    apply app_inv_head in Hthread. injection Hthread as <-. reflexivity. }
  destruct (deliver_run env ParseDevices thread (test_devices env w))
    as (before & code' & Hlog & Hquiet & Hdeliver).
  assert (code' = code).
  { rewrite Hlog, Hfresh in Hfinished. cbn [app] in Hfinished.
    apply in_app_or in Hfinished. destruct Hfinished as [Hin|[Heq|[]]].
    - rewrite Forall_forall in Hquiet. discriminate (Hquiet _ Hin).
    - congruence. }
  subst code'. rewrite (Hdeliver Hfresh).
  cbn [on_finished]. unfold parse_devices.
  apply Z.eqb_neq in Hcode. rewrite Hcode.
  set (texts := outputs_of before). clearbody texts.
  assert (Hkept : forall texts w0,
             device_items (fold_left (fun w text => say text w) texts w0)
             = device_items w0 /\
             device_index (fold_left (fun w text => say text w) texts w0)
             = device_index w0).
  { clear. induction texts as [|text texts IH]; intros w0;
      [split; reflexivity|].
    cbn [fold_left]. destruct (IH (say text w0)) as [-> ->].
    split; reflexivity. }
  destruct (Hkept texts (test_devices env w)) as [-> ->].
  split; reflexivity.
Qed.

Lemma test_devices_failure_keeps_list_witness :
  running_processes (base (test_devices failing_os (initial_window "./")))
  = [init "./adb devices" "./"] /\
  In (Finished (-1))
     (log (snd (run failing_os (init "./adb devices" "./")))) /\
  device_items
    (deliver_all ParseDevices
       (log (snd (run failing_os (init "./adb devices" "./"))))
       (test_devices failing_os (initial_window "./")))
  = [no_devices].
Proof.
  assert (Hfinished : In (Finished (-1))
            (log (snd (run failing_os (init "./adb devices" "./")))))
    by (right; right; left; reflexivity).
  split; [reflexivity|]. split; [exact Hfinished|].
  destruct (@test_devices_failure_keeps_list failing_os (initial_window "./")
              (init "./adb devices" "./") (-1) eq_refl Hfinished)
    as [Hitems _]; [discriminate|exact Hitems].
Defined.
